(** * Wistia video fetcher: a model of [download.py] and its properties

    The program scrapes the asset manifest of a Wistia embed page, picks
    one rendition by container and resolution label, and streams it to a
    file; a thread pool maps this over a list of (title, id) rows.

    The model follows the source method by method.  Python objects that
    are mutated in place ([self]) and the outside world (network traffic,
    console lines, files written) are threaded through a state and
    exception monad; the libraries the script calls are modelled by what
    they do on the values the script hands them. *)

From Stdlib Require Import Ascii String List ZArith Lia.
From stdpp Require Import base option gmap strings list.

Open Scope string_scope.

(** ** Python strings *)

Module PyStr.

(** The double quote character, which a string literal cannot hold. *)
Definition dq : string := String (ascii_of_nat 34) EmptyString.

(** The line feed character. *)
Definition lf : ascii := ascii_of_nat 10.

(** [s.startswith(p)] *)
Fixpoint startswith (p s : string) : bool :=
  match p, s with
  | EmptyString, _ => true
  | String a p', String b s' => if Ascii.eqb a b then startswith p' s' else false
  | String _ _, EmptyString => false
  end.

(** [s[n:]] *)
Fixpoint drop (n : nat) (s : string) : string :=
  match n, s with
  | S k, String _ t => drop k t
  | _, _ => s
  end.

(** [old in s] *)
Fixpoint contains (old s : string) : bool :=
  startswith old s ||
  match s with
  | EmptyString => false
  | String _ t => contains old t
  end.

(** The scan of [s.replace(old, new)] for a non-empty [old]: occurrences
    are taken leftmost first and do not overlap.  [skip] counts the
    characters of the occurrence just replaced that are still to be
    passed over. *)
Fixpoint replace_scan (old new : string) (skip : nat) (s : string) : string :=
  match s with
  | EmptyString => EmptyString
  | String c t =>
      match skip with
      | S k => replace_scan old new k t
      | O =>
          if startswith old s
          then new ++ replace_scan old new (String.length old - 1) t
          else String c (replace_scan old new 0 t)
      end
  end.

(** For the empty [old], Python puts [new] before every character and
    at the end. *)
Fixpoint interleave (new s : string) : string :=
  match s with
  | EmptyString => new
  | String c t => new ++ String c (interleave new t)
  end.

(** [s.replace(old, new)] *)
Definition replace (old new s : string) : string :=
  match old with
  | EmptyString => interleave new s
  | String _ _ => replace_scan old new 0 s
  end.

(** [s.rpartition('/')[2]]: what follows the last [sep], the whole
    string when there is none. *)
Fixpoint after_last (sep : ascii) (s : string) : string :=
  match s with
  | EmptyString => EmptyString
  | String c t =>
      if Ascii.eqb c sep then after_last sep t
      else if contains (String sep EmptyString) t then after_last sep t
      else s
  end.

End PyStr.

(** ** Values, exceptions and the outside world *)

(** A value of the decoded manifest as the script can tell it apart: a
    string, or anything else (number, boolean, null, array, object, and
    the NaN that pandas puts where an entry lacks a key).  None of the
    latter equals a string, and none has a [replace] method. *)
Inductive jvalue :=
  | JStr (s : string)
  | JOther.

(** One entry of the manifest: a JSON object, decoded to a dict. *)
Abbreviation asset := (gmap string jvalue).

(** The exceptions that can occur. *)
Inductive exn :=
  | AssetNotFoundError
  | RequestException
  | ValueError
  | KeyError (key : string)
  | AttributeError
  | OSError.

(** What a call does: it returns a value or raises. *)
Inductive outcome (A : Type) :=
  | Ok (a : A)
  | Raise (e : exn).
Arguments Ok {A} a.
Arguments Raise {A} e.

(** The calls the program makes on the outside world, in order: a request
    handed to the request library with its address, a line printed, a
    file opened and filled. *)
Inductive event :=
  | Fetch (url : string)                  (* requests.get(url) *)
  | FetchStream (url : string)            (* requests.get(url, stream=True) *)
  | Print (line : string)                 (* print(line) *)
  | WriteFile (path : string) (body : string)   (* open(path, 'wb') and the copy *)
  | PrintElapsed.                         (* the closing line with the elapsed time *)

(** The answer to a GET that completes. *)
Record response := { status_code : Z; content : string }.

(** ** The manifest pattern *)

Module Re.
Import PyStr.

(** The literal head of the pattern
    [W\.iframeInit\({"assets":(\[.*\])], up to the group. *)
Definition marker : string := "W.iframeInit({" ++ dq ++ "assets" ++ dq ++ ":".

(** The characters up to the first line feed: what [.*] can run over. *)
Fixpoint line (s : string) : string :=
  match s with
  | EmptyString => EmptyString
  | String c t => if Ascii.eqb c lf then EmptyString else String c (line t)
  end.

(** The longest prefix that ends in a closing bracket, which is where
    the greedy [.*] followed by [\]] stops. *)
Fixpoint upto_last_bracket (s : string) : option string :=
  match s with
  | EmptyString => None
  | String c t =>
      match upto_last_bracket t with
      | Some r => Some (String c r)
      | None => if Ascii.eqb c "]" then Some "]" else None
      end
  end.

(** A match that starts at the head of [s]: group 1. *)
Definition match_here (s : string) : option string :=
  if startswith (marker ++ "[") s
  then
    match upto_last_bracket (line (drop (String.length marker + 1) s)) with
    | Some r => Some ("[" ++ r)
    | None => None
    end
  else None.

(** [re.search(findstr, page)], as group 1 of the leftmost match. *)
Fixpoint search (page : string) : option string :=
  match match_here page with
  | Some g => Some g
  | None =>
      match page with
      | EmptyString => None
      | String _ t => search t
      end
  end.

End Re.

(** ** The data frame *)

Module Pd.

(** A frame built from a list of dicts: one row per dict. *)
Definition DataFrame := list asset.

(** The columns are the keys that occur in some row, so a frame built
    from the empty list has none. *)
Definition has_column (df : DataFrame) (c : string) : bool :=
  existsb (fun r => bool_decide (is_Some (r !! c))) df.

(** A cell; NaN where the row lacks the key. *)
Definition cell (c : string) (r : asset) : jvalue := default JOther (r !! c).

(** [df[c]] *)
Definition getitem (df : DataFrame) (c : string) : outcome (list jvalue) :=
  if has_column df c then Ok (map (cell c) df) else Raise (KeyError c).

(** [series == x], element by element. *)
Definition eq_str (x : string) (v : jvalue) : bool :=
  match v with
  | JStr s => bool_decide (s = x)
  | JOther => false
  end.

(** The rows a mask keeps. *)
Fixpoint select {A} (mask : list bool) (l : list A) : list A :=
  match mask, l with
  | true :: m, x :: t => x :: select m t
  | false :: m, _ :: t => select m t
  | _, _ => []
  end.

(** [df.loc[mask, c]] *)
Definition loc (df : DataFrame) (mask : list bool) (c : string) : outcome (list jvalue) :=
  match getitem df c with
  | Ok col => Ok (select mask col)
  | Raise e => Raise e
  end.

End Pd.

(** ** The job object and the monad of its methods *)

(** The fields of a [Video] instance. *)
Record Video := {
  srcpage : string;
  vid_name : option string;
  assets : option Pd.DataFrame;
  vidurl : option string;
  resolution : string;
  container : string
}.

Definition set_assets (a : option Pd.DataFrame) (v : Video) : Video :=
  {| srcpage := srcpage v; vid_name := vid_name v; assets := a;
     vidurl := vidurl v; resolution := resolution v; container := container v |}.

Definition set_vidurl (u : option string) (v : Video) : Video :=
  {| srcpage := srcpage v; vid_name := vid_name v; assets := assets v;
     vidurl := u; resolution := resolution v; container := container v |}.

(** A method runs on the object it is called on and on the trace of
    events so far.  A raised exception keeps the changes made before it. *)
Record state := { self : Video; out : list event }.

Definition M (A : Type) : Type := state -> outcome A * state.

#[global] Instance M_ret : MRet M := fun A a st => (Ok a, st).

#[global] Instance M_bind : MBind M := fun A B f m st =>
  match m st with
  | (Ok a, st') => f a st'
  | (Raise e, st') => (Raise e, st')
  end.

Definition raise {A} (e : exn) : M A := fun st => (Raise e, st).

Definition get_self : M Video := fun st => (Ok (self st), st).

Definition update_self (f : Video -> Video) : M unit :=
  fun st => (Ok tt, {| self := f (self st); out := out st |}).

Definition emit (e : event) : M unit :=
  fun st => (Ok tt, {| self := self st; out := (out st ++ [e])%list |}).

(** [print(line)] *)
Definition print (line : string) : M unit := emit (Print line).

(** [try: body / except: handler], which catches everything. *)
Definition try_except {A} (body handler : M A) : M A := fun st =>
  match body st with
  | (Raise _, st') => handler st'
  | r => r
  end.

(** [try: body / except ValueError: handler] *)
Definition try_except_ValueError {A} (body handler : M A) : M A := fun st =>
  match body st with
  | (Raise ValueError, st') => handler st'
  | r => r
  end.

(** [try: x = body / except: handler], where the handler ends in a
    [return] and [rest] is the code after the statement. *)
Definition try_except_return {A B} (body : M A) (handler : M B) (rest : A -> M B)
    : M B := fun st =>
  match body st with
  | (Raise _, st') => handler st'
  | (Ok a, st') => rest a st'
  end.

(** Lifting a library call that returns or raises. *)
Definition lift {A} (o : outcome A) : M A := fun st => (o, st).

(** [str(x)] of a string or [None]. *)
Definition py_str (x : option string) : string :=
  match x with
  | Some s => s
  | None => "None"
  end.

(** ** The program *)

(** A row of the input: the title and the video id. *)
Abbreviation item := (option string * string)%type.

Section Program.

(** The network: what a GET of a URL yields, [None] when the request
    itself fails.  A body that is not UTF-8 makes [get_assets] raise in
    the same [try] block as a failed request, and is counted with it. *)
Variable net : string -> option response.

(** [json.loads] on the captured array: the list of its entries, [None]
    when it raises [ValueError].  The entries are taken to be objects,
    as they are on the embed page. *)
Variable json_loads : string -> option (list asset).

(** The file system: what [open(path, 'wb')] does on a path that is not
    empty, [Ok] when the file opens and the exception it raises when it
    does not (a directory of the path is missing, the path is a
    directory, ...). *)
Variable open_wb : string -> outcome unit.

(** [open(path, 'wb')].  The empty path names no file: [open] raises
    [FileNotFoundError], an [OSError]. *)
Definition py_open (path : string) : outcome unit :=
  if bool_decide (path = EmptyString) then Raise OSError else open_wb path.

(** [requests.get(url)] *)
Definition requests_get (url : string) : M response :=
  emit (Fetch url);;
  match net url with
  | Some r => mret r
  | None => raise RequestException
  end.

(** [requests.get(url, stream=True)].  The event records the call with
    its address; an address the library refuses is a request that fails,
    and [net] has no answer for it.  Called with [None] there is no
    address to record: the library raises at once. *)
Definition requests_get_stream (url : option string) : M response :=
  match url with
  | None => raise RequestException
  | Some u =>
      emit (FetchStream u);;
      match net u with
      | Some r => mret r
      | None => raise RequestException
      end
  end.

(** [pd.DataFrame(assets)]: the constructor raises [ValueError] on a
    string, which is what [assets] still is when the decoding failed. *)
Definition pd_DataFrame (a : string + list asset) : M Pd.DataFrame :=
  match a with
  | inl _ => raise ValueError
  | inr l => mret l
  end.

Definition baseaddr : string := "http://fast.wistia.net/embed/iframe/".

Definition recognised_resolutions : gset string :=
  {[ "224p"; "360p"; "720p"; "1080p"; "4k" ]}.

Definition recognised_containers : gset string := {[ "mp4" ]}.

(** [Video.__init__].  A [vid_name] that is not a [str] is given as
    [None], which is what the constructor turns it into. *)
Definition Video_init (name : option string) (vid_id : string)
    (res cont : string) : Video :=
  {| srcpage := baseaddr ++ vid_id;
     vid_name := name;
     assets := None;
     vidurl := None;
     resolution := if decide (res ∈ recognised_resolutions) then res else "1080p";
     container := if decide (cont ∈ recognised_containers) then cont else "mp4" |}.

(** The [try] block of [Video.get_assets]. *)
Definition get_assets_try : M (option Pd.DataFrame) :=
  v ← get_self;
  r ← requests_get (srcpage v);
  let page := content r in
  match Re.search page with
  | Some g =>
      a ← try_except_ValueError
            (match json_loads g with
             | Some l => mret (inr l)
             | None => raise ValueError
             end)
            (print "Error loading JSON string";; mret (inl g));
      df ← pd_DataFrame a;
      update_self (set_assets (Some df));;
      v' ← get_self;
      mret (assets v')
  | None => raise AssetNotFoundError
  end.

Definition asset_failure_message : string :=
  "Failed to get asset information from page." ++ String PyStr.lf "Check video ID.".

(** [Video.get_assets] *)
Definition get_assets : M (option Pd.DataFrame) :=
  try_except get_assets_try (print asset_failure_message;; mret None).

(** [x.replace('.bin', f'.{container}')] on a cell of the frame. *)
Definition cell_replace (cont : string) (x : jvalue) : M string :=
  match x with
  | JStr s => mret (PyStr.replace ".bin" ("." ++ cont) s)
  | JOther => raise AttributeError
  end.

(** [Video.get_vidurl] *)
Definition get_vidurl : M (option string) :=
  v ← get_self;
  (if assets v is None then get_assets;; mret tt else mret tt);;
  v ← get_self;
  match assets v with
  | None => raise AttributeError     (* None.loc *)
  | Some df =>
      c ← lift (Pd.getitem df "container");
      d ← lift (Pd.getitem df "display_name");
      let mask := zip_with andb (map (Pd.eq_str (container v)) c)
                                (map (Pd.eq_str (resolution v)) d) in
      des ← lift (Pd.loc df mask "url");
      match des with
      | [x] => u ← cell_replace (container v) x;
               update_self (set_vidurl (Some u))
      | _ => mret tt
      end;;
      v' ← get_self;
      mret (vidurl v')
  end.

(** The destination path of [Video.download]. *)
Definition destination (v : Video) : M string :=
  match vid_name v with
  | None =>
      match vidurl v with
      | Some u => mret (PyStr.after_last "/" u)
      | None => raise AttributeError         (* None.rpartition *)
      end
  | Some n => mret (n ++ "." ++ container v)
  end.

(** [Video.download].  The file is opened outside the [try]: what
    [open] raises leaves the method.  Once the file is open the copy is
    taken to deliver the body whole. *)
Definition download : M (option string) :=
  v ← get_self;
  (if vidurl v is None then get_vidurl;; mret tt else mret tt);;
  v ← get_self;
  path ← destination v;
  try_except_return
    (requests_get_stream (vidurl v))
    (print ("Error downloading " ++ py_str (vid_name v));; mret None)
    (fun r =>
       (if bool_decide (status_code r = 200%Z)
        then lift (py_open path);; emit (WriteFile path (content r))
        else mret tt);;
       v' ← get_self;
       mret (vidurl v')).

(** [download_vid]: a fresh object per call, and no [return]. *)
Definition download_vid (it : item) (w : list event)
    : outcome (option string) * list event :=
  let vid := Video_init (fst it) (snd it) "224p" "mp4" in
  match download {| self := vid; out := w |} with
  | (Ok _, st) => (Ok None, out st)
  | (Raise e, st) => (Raise e, out st)
  end.

(** The loop over the results.  [imap_unordered] hands results over in
    the order the jobs complete, and re-raises in the loop the exception
    of a job that raised.  [completed] lists the rows in that order, and
    each job is run here as a whole when its turn comes: this is the run
    of a batch of one row, and for a longer batch the run in which the
    jobs follow one another; the pool also has runs in which the events
    of several jobs are interleaved, which this function does not
    describe. *)
Fixpoint consume (completed : list item) (w : list event)
    : outcome unit * list event :=
  match completed with
  | [] => (Ok tt, w)
  | it :: rest =>
      match download_vid it w with
      | (Ok url, w') => consume rest (w' ++ [Print (py_str url)])%list
      | (Raise e, w') => (Raise e, w')
      end
  end.

(** The script body, from the pool on. *)
Definition main (completed : list item) (w : list event)
    : outcome unit * list event :=
  match consume completed w with
  | (Ok _, w') => (Ok tt, (w' ++ [PrintElapsed])%list)
  | (Raise e, w') => (Raise e, w')
  end.

End Program.

(** ** Vocabulary of the statements *)

(** An entry matches a container and a resolution label when both
    fields are strings equal to them. *)
Definition matches (cont res : string) (r : asset) : bool :=
  Pd.eq_str cont (Pd.cell "container" r) && Pd.eq_str res (Pd.cell "display_name" r).

(** The destination path of a job whose URL is resolved to [u]. *)
Definition dest_path (v : Video) (u : string) : string :=
  match vid_name v with
  | None => PyStr.after_last "/" u
  | Some n => n ++ "." ++ container v
  end.

(** What the download step alone does on the resolved URL [u]: the events
    it adds, and the value it returns or the exception it raises. *)
Definition stream_events (net : string -> option response)
    (open_wb : string -> outcome unit) (v : Video) (u : string)
    : list event :=
  FetchStream u ::
  match net u with
  | Some r =>
      if bool_decide (status_code r = 200%Z)
      then
        match py_open open_wb (dest_path v u) with
        | Ok _ => [WriteFile (dest_path v u) (content r)]
        | Raise _ => []
        end
      else []
  | None => [Print ("Error downloading " ++ py_str (vid_name v))]
  end.

Definition stream_outcome (net : string -> option response)
    (open_wb : string -> outcome unit) (v : Video) (u : string)
    : outcome (option string) :=
  match net u with
  | Some r =>
      if bool_decide (status_code r = 200%Z)
      then
        match py_open open_wb (dest_path v u) with
        | Ok _ => Ok (Some u)
        | Raise e => Raise e
        end
      else Ok (Some u)
  | None => Ok None
  end.

(** The manifest a page address yields: the entries decoded from the
    group the pattern finds in the answer, if each step succeeds. *)
Definition manifest (net : string -> option response)
    (json_loads : string -> option (list asset)) (url : string)
    : option (list asset) :=
  match net url with
  | Some r =>
      match Re.search (content r) with
      | Some g => json_loads g
      | None => None
      end
  | None => None
  end.

(** The addresses fetched, the addresses streamed and the files written
    in a trace, in order. *)
Fixpoint fetches (t : list event) : list string :=
  match t with
  | [] => []
  | Fetch u :: t' => u :: fetches t'
  | _ :: t' => fetches t'
  end.

Fixpoint streams (t : list event) : list string :=
  match t with
  | [] => []
  | FetchStream u :: t' => u :: streams t'
  | _ :: t' => streams t'
  end.

Fixpoint writes (t : list event) : list (string * string) :=
  match t with
  | [] => []
  | WriteFile p b :: t' => (p, b) :: writes t'
  | _ :: t' => writes t'
  end.

(** The fields of a job that the constructor sets for good. *)
Definition same_config (v v' : Video) : Prop :=
  srcpage v' = srcpage v /\ vid_name v' = vid_name v
  /\ resolution v' = resolution v /\ container v' = container v.

(** A trace of console lines only: no request, no file. *)
Definition quiet (t : list event) : Prop :=
  fetches t = [] /\ streams t = [] /\ writes t = [].

(** ** The pool *)

(** [ThreadPool(14).imap_unordered(download_vid, ids)] and the loop over
    its results, as a transition system.  The jobs are independent of
    one another, so a job in flight is the list of the events it has
    still to produce and the result it will hand over.  The rows are
    taken in order by the workers, at most [width] at a time; the events
    of the jobs in flight interleave freely; a job that has produced all
    its events hands its result over; the main thread prints the results
    in the order they were handed over, re-raises the exception of a job
    that raised, and prints the closing line when every row has been
    consumed.  After the main thread has raised, the workers may go on
    for a while: the steps of the jobs stay possible, those of the main
    thread do not. *)
Module Pool.

Record flight := {
  todo : list event;
  result : outcome (option string)
}.

Record pool := {
  waiting : list item;
  running : list flight;
  done : list (outcome (option string));
  trace : list event;
  ended : option (outcome unit)
}.

Definition width : nat := 14.

(** The script starts with nothing printed and every row waiting. *)
Definition init (ids : list item) : pool :=
  {| waiting := ids; running := []; done := []; trace := []; ended := None |}.

Section Steps.

Variable net : string -> option response.
Variable json_loads : string -> option (list asset).
Variable open_wb : string -> outcome unit.

(** A worker takes a row: the job it will run. *)
Definition launch (it : item) : flight :=
  {| todo := snd (download_vid net json_loads open_wb it []);
     result := fst (download_vid net json_loads open_wb it []) |}.

Inductive step : pool -> pool -> Prop :=
  | step_start it rest run dn tr en :
      length run < width ->
      step {| waiting := it :: rest; running := run; done := dn;
              trace := tr; ended := en |}
           {| waiting := rest; running := run ++ [launch it]; done := dn;
              trace := tr; ended := en |}
  | step_emit wt r1 e t o r2 dn tr en :
      step {| waiting := wt;
              running := r1 ++ {| todo := e :: t; result := o |} :: r2;
              done := dn; trace := tr; ended := en |}
           {| waiting := wt;
              running := r1 ++ {| todo := t; result := o |} :: r2;
              done := dn; trace := tr ++ [e]; ended := en |}
  | step_complete wt r1 o r2 dn tr en :
      step {| waiting := wt;
              running := r1 ++ {| todo := []; result := o |} :: r2;
              done := dn; trace := tr; ended := en |}
           {| waiting := wt; running := r1 ++ r2;
              done := dn ++ [o]; trace := tr; ended := en |}
  | step_print wt run u dn tr :
      step {| waiting := wt; running := run; done := Ok u :: dn;
              trace := tr; ended := None |}
           {| waiting := wt; running := run; done := dn;
              trace := tr ++ [Print (py_str u)]; ended := None |}
  | step_raise wt run e dn tr :
      step {| waiting := wt; running := run; done := Raise e :: dn;
              trace := tr; ended := None |}
           {| waiting := wt; running := run; done := dn;
              trace := tr; ended := Some (Raise e) |}
  | step_finish tr :
      step {| waiting := []; running := []; done := [];
              trace := tr; ended := None |}
           {| waiting := []; running := []; done := [];
              trace := tr ++ [PrintElapsed]; ended := Some (Ok tt) |}.

(** A result that is an exception. *)
Definition raised {A} (o : outcome A) : Prop :=
  match o with
  | Raise _ => True
  | Ok _ => False
  end.

(** A pool in which an exception is on its way to the main thread, or
    has reached it. *)
Definition doomed (p : pool) : Prop :=
  Exists (fun it => raised (result (launch it))) (waiting p)
  \/ Exists (fun f => raised (result f)) (running p)
  \/ Exists raised (done p)
  \/ exists e, ended p = Some (Raise e).

(** The states of the pool on a batch of one row. *)
Inductive single (it : item) : pool -> Prop :=
  | single_init : single it (init [it])
  | single_run (pre suf : list event) :
      todo (launch it) = (pre ++ suf)%list ->
      single it {| waiting := [];
                   running := [ {| todo := suf; result := result (launch it) |} ];
                   done := []; trace := pre; ended := None |}
  | single_done :
      single it {| waiting := []; running := []; done := [result (launch it)];
                   trace := todo (launch it); ended := None |}
  | single_printed u :
      result (launch it) = Ok u ->
      single it {| waiting := []; running := []; done := [];
                   trace := todo (launch it) ++ [Print (py_str u)];
                   ended := None |}
  | single_finished u :
      result (launch it) = Ok u ->
      single it {| waiting := []; running := []; done := [];
                   trace := (todo (launch it) ++ [Print (py_str u)])
                            ++ [PrintElapsed];
                   ended := Some (Ok tt) |}
  | single_raised e :
      result (launch it) = Raise e ->
      single it {| waiting := []; running := []; done := [];
                   trace := todo (launch it); ended := Some (Raise e) |}.

End Steps.

End Pool.

(** ** A small world for the examples *)

Module Demo.
Import PyStr.

(** The rendition of the scenario: one 224p mp4 entry. *)
Definition rendition : asset :=
  {[ "container" := JStr "mp4";
     "display_name" := JStr "224p";
     "url" := JStr "http://e.net/d/file.bin" ]}.

(** The text of the manifest that holds it. *)
Definition manifest_text : string :=
  "[{" ++ dq ++ "container" ++ dq ++ ":" ++ dq ++ "mp4" ++ dq ++ ","
       ++ dq ++ "display_name" ++ dq ++ ":" ++ dq ++ "224p" ++ dq ++ ","
       ++ dq ++ "url" ++ dq ++ ":" ++ dq ++ "http://e.net/d/file.bin" ++ dq ++ "}]".

(** [json.loads] on the manifests that occur in the examples. *)
Definition json_loads (s : string) : option (list asset) :=
  if bool_decide (s = manifest_text) then Some [rendition]
  else if bool_decide (s = "[]") then Some []
  else None.

(** The embed pages: [abc123] carries the manifest, [empty1] an empty
    one, [nosuch] is an error page without the marker. *)
Definition page_abc123 : string :=
  "<script>" ++ Re.marker ++ manifest_text ++ ",x);</script>".

Definition page_empty1 : string :=
  "<script>" ++ Re.marker ++ "[]" ++ ",x);</script>".

Definition page_nosuch : string := "<h1>Not Found</h1>".

Definition net (url : string) : option response :=
  if bool_decide (url = "http://fast.wistia.net/embed/iframe/abc123")
  then Some {| status_code := 200; content := page_abc123 |}
  else if bool_decide (url = "http://fast.wistia.net/embed/iframe/empty1")
  then Some {| status_code := 200; content := page_empty1 |}
  else if bool_decide (url = "http://fast.wistia.net/embed/iframe/nosuch")
  then Some {| status_code := 404; content := page_nosuch |}
  else if bool_decide (url = "http://e.net/d/file.mp4")
  then Some {| status_code := 200; content := "VIDEO" |}
  else if bool_decide (url = "http://e.net/gone.mp4")
  then Some {| status_code := 404; content := "gone" |}
  else None.

(** A working directory without subdirectories: a path with a slash
    does not open. *)
Definition open_wb (path : string) : outcome unit :=
  if contains "/" path then Raise OSError else Ok tt.


Definition resp_nosuch : response := {| status_code := 404; content := page_nosuch |}.



(** Jobs at the stages of their life: fresh, with the frame fetched,
    with the URL resolved. *)
Definition job_nosuch : Video := Video_init (Some "A") "nosuch" "224p" "mp4".

Definition job_fresh : Video := Video_init (Some "MyVideo") "abc123" "224p" "mp4".

Definition job_fetched : Video := set_assets (Some [rendition]) job_fresh.

Definition job_resolved : Video := set_vidurl (Some "http://e.net/d/file.mp4") job_fetched.




(** The trace of the job of [abc123] run from the empty trace. *)
Definition trace_abc123 : list event :=
  [ Fetch "http://fast.wistia.net/embed/iframe/abc123";
    FetchStream "http://e.net/d/file.mp4";
    WriteFile "MyVideo.mp4" "VIDEO" ].

End Demo.

(** ** More of the example world *)

Module Demo2.
Import PyStr.

(** A page whose group is not JSON, and the page of [abc123] served
    with status 404. *)
Definition page_broken : string := "<script>" ++ Re.marker ++ "[oops]);</script>".

Definition resp_broken : response := {| status_code := 200; content := page_broken |}.

Definition resp_moved : response := {| status_code := 404; content := Demo.page_abc123 |}.

(** The answer to an address that ends in a slash. *)
Definition resp_index : response := {| status_code := 200; content := "INDEX" |}.

Definition net (url : string) : option response :=
  if bool_decide (url = "http://fast.wistia.net/embed/iframe/broken1")
  then Some resp_broken
  else if bool_decide (url = "http://fast.wistia.net/embed/iframe/abc123")
  then Some resp_moved
  else if bool_decide (url = "http://e.net/d/")
  then Some resp_index
  else Demo.net url.


Definition job_broken : Video := Video_init (Some "B") "broken1" "224p" "mp4".

Definition job_offline : Video := Video_init (Some "C") "offline1" "224p" "mp4".

(** Frames that lack a column, one whose matching entry has a number
    for URL, and one with two matching entries. *)
Definition frame_no_container : Pd.DataFrame :=
  [ {[ "display_name" := JStr "224p"; "url" := JStr "http://e.net/d/file.bin" ]} ].

Definition frame_no_label : Pd.DataFrame :=
  [ {[ "container" := JStr "mp4"; "url" := JStr "http://e.net/d/file.bin" ]} ].

Definition frame_no_url : Pd.DataFrame :=
  [ {[ "container" := JStr "mp4"; "display_name" := JStr "224p" ]} ].

Definition entry_url_number : asset :=
  {[ "container" := JStr "mp4"; "display_name" := JStr "224p"; "url" := JOther ]}.

Definition frame_two : Pd.DataFrame := [Demo.rendition; Demo.rendition].

Definition job_two : Video := set_assets (Some frame_two) Demo.job_fresh.

Definition job_two_unnamed : Video :=
  set_assets (Some frame_two) (Video_init None "abc123" "224p" "mp4").

(** The jobs of the rows [abc123] and [nosuch] in flight, and the pool
    on the batch of both at the moment the main thread has re-raised
    the exception of the second: the first job has fetched its page and
    is still running. *)
Definition flight_nosuch : Pool.flight :=
  {| Pool.todo := [Fetch "http://fast.wistia.net/embed/iframe/nosuch";
                   Print asset_failure_message];
     Pool.result := Raise AttributeError |}.

Definition pool_aborted : Pool.pool :=
  {| Pool.waiting := [];
     Pool.running :=
       [ {| Pool.todo := [FetchStream "http://e.net/d/file.mp4";
                          WriteFile "MyVideo.mp4" "VIDEO"];
            Pool.result := Ok None |} ];
     Pool.done := [];
     Pool.trace := [Fetch "http://fast.wistia.net/embed/iframe/abc123";
                    Fetch "http://fast.wistia.net/embed/iframe/nosuch";
                    Print asset_failure_message];
     Pool.ended := Some (Raise AttributeError) |}.

(** The pool on the batch of the row [nosuch] alone, at its end. *)
Definition pool_nosuch_ended : Pool.pool :=
  {| Pool.waiting := []; Pool.running := []; Pool.done := [];
     Pool.trace := [Fetch "http://fast.wistia.net/embed/iframe/nosuch";
                    Print asset_failure_message];
     Pool.ended := Some (Raise AttributeError) |}.

End Demo2.

(** * Properties *)

(** ** Strings *)

Module PyStrFacts.
Import PyStr.

(** The string operations on the values Python gives for them. *)
Example replace_trailing :
  replace ".bin" ".mp4" "http://e.net/d/file.bin" = "http://e.net/d/file.mp4".
Proof. reflexivity. Qed.

Example replace_absent :
  replace ".bin" ".mp4" "http://e.net/d/file.m3u8" = "http://e.net/d/file.m3u8".
Proof. reflexivity. Qed.

Example replace_adjacent : replace ".bin" ".mp4" "a.bin.binb" = "a.mp4.mp4b".
Proof. reflexivity. Qed.

Example replace_empty_old : replace EmptyString "-" "ab" = "-a-b-".
Proof. reflexivity. Qed.

Example after_last_segment : after_last "/" "http://e.net/d/file.mp4" = "file.mp4".
Proof. reflexivity. Qed.

Example after_last_no_slash : after_last "/" "file.mp4" = "file.mp4".
Proof. reflexivity. Qed.

Example after_last_trailing_slash : after_last "/" "http://e.net/d/" = EmptyString.
Proof. reflexivity. Qed.

Lemma append_nil (s : string) : EmptyString ++ s = s.
Proof. reflexivity. Qed.

Lemma append_cons (c : ascii) (a s : string) : String c a ++ s = String c (a ++ s).
Proof. reflexivity. Qed.

Lemma append_assoc (a b c : string) : (a ++ b) ++ c = a ++ (b ++ c).
Proof.
  induction a as [|x a IH]; [reflexivity|].
  rewrite !append_cons. now rewrite IH.
Qed.

Lemma startswith_app (p s : string) : startswith p (p ++ s) = true.
Proof.
  induction p as [|a p IH]; [reflexivity|].
  rewrite append_cons. simpl. now rewrite Ascii.eqb_refl.
Qed.

Lemma startswith_app_l (p a b : string) :
  startswith p a = true -> startswith p (a ++ b) = true.
Proof.
  revert a. induction p as [|x p IH]; intros [|y a]; try easy.
  rewrite append_cons. simpl.
  destruct (Ascii.eqb x y); [apply IH | easy].
Qed.

Lemma startswith_length (p s : string) :
  startswith p s = true -> String.length p <= String.length s.
Proof.
  revert s. induction p as [|x p IH]; intros [|y s]; simpl; try easy; try lia.
  destruct (Ascii.eqb x y); [|easy]. intros H. apply IH in H. lia.
Qed.

(** Skipping the rest of an occurrence. *)
Lemma replace_scan_skip (old new x s : string) :
  replace_scan old new (String.length x) (x ++ s) = replace_scan old new 0 s.
Proof.
  induction x as [|c x IH]; [|rewrite append_cons; exact IH].
  rewrite append_nil. destruct s; reflexivity.
Qed.

(** An occurrence of [.bin] cannot begin in [a] and end in a [.bin]
    that follows [a]: the dot occurs only at its head. *)
Lemma bin_no_overlap (c : ascii) (a b : string) :
  startswith ".bin" (String c a ++ ".bin" ++ b) = true ->
  startswith ".bin" (String c a) = true.
Proof.
  destruct a as [|c1 [|c2 [|c3 a]]]; rewrite ?append_cons, ?append_nil;
    rewrite ?append_cons; simpl;
    repeat match goal with
           | |- context [Ascii.eqb ?x ?y] => destruct (Ascii.eqb_spec x y)
           end; congruence.
Qed.

(** Every occurrence is rewritten, wherever it stands. *)
Lemma replace_scan_bin (new b : string) (a : string) :
  forall k, k <= String.length a ->
  replace_scan ".bin" new k (a ++ ".bin" ++ b)
  = replace_scan ".bin" new k a ++ new ++ replace_scan ".bin" new 0 b.
Proof.
  induction a as [|c t IH]; intros k Hk.
  - assert (k = 0) as -> by (simpl in Hk; lia).
    rewrite append_nil.
    change (".bin" ++ b) with (String "." ("bin" ++ b)).
    cbn [replace_scan].
    change (String "." ("bin" ++ b)) with (".bin" ++ b).
    rewrite startswith_app.
    change (String.length ".bin" - 1) with (String.length "bin").
    now rewrite replace_scan_skip.
  - destruct k as [|k].
    + destruct (startswith ".bin" (String c t)) eqn:E.
      * pose proof (startswith_length _ _ E) as Hl. simpl in Hl.
        rewrite append_cons. cbn [replace_scan].
        rewrite <- append_cons, (startswith_app_l _ _ _ E), E.
        rewrite IH by (simpl; lia). now rewrite append_assoc.
      * rewrite append_cons. cbn [replace_scan].
        rewrite <- append_cons.
        destruct (startswith ".bin" (String c t ++ ".bin" ++ b)) eqn:E'.
        { apply bin_no_overlap in E'. congruence. }
        rewrite E. rewrite IH by lia. now rewrite append_cons.
    + rewrite append_cons. cbn [replace_scan].
      apply IH. simpl in Hk. lia.
Qed.

Lemma replace_bin (new a b : string) :
  replace ".bin" new (a ++ ".bin" ++ b)
  = replace ".bin" new a ++ new ++ replace ".bin" new b.
Proof. apply replace_scan_bin. lia. Qed.

Lemma contains_startswith (p s : string) :
  contains p s = false -> startswith p s = false.
Proof. destruct s; simpl; intros H; apply orb_false_iff in H; tauto. Qed.
End PyStrFacts.

(** ** The manifest pattern *)

Module ReFacts.
Import PyStr PyStrFacts.

(** The pattern on the pages of the examples: the group runs to the
    last closing bracket of the line, and a page without the marker gives
    no match. *)
Example search_manifest : Re.search Demo.page_abc123 = Some Demo.manifest_text.
Proof. reflexivity. Qed.

Example search_greedy :
  Re.search (Re.marker ++ "[1],[2]);" ++ String lf "[3]") = Some "[1],[2]".
Proof. reflexivity. Qed.

Example search_unclosed : Re.search (Re.marker ++ "[1,2") = None.
Proof. reflexivity. Qed.

Example search_error_page : Re.search Demo.page_nosuch = None.
Proof. reflexivity. Qed.

Lemma marker_bracket_startswith (s : string) :
  startswith (Re.marker ++ "[") s = true -> startswith Re.marker s = true.
Proof.
  generalize Re.marker. intros m. revert s.
  induction m as [|x m IH]; intros s; [reflexivity|].
  rewrite append_cons. destruct s as [|y s]; simpl; [easy|].
  destruct (Ascii.eqb x y); [apply IH | easy].
Qed.

(** A page without the marker gives no match. *)
Lemma search_no_marker (page : string) :
  contains Re.marker page = false -> Re.search page = None.
Proof.
  induction page as [|c t IH]; intros H.
  - reflexivity.
  - assert (Re.match_here (String c t) = None) as Hm.
    { unfold Re.match_here.
      destruct (startswith (Re.marker ++ "[") (String c t)) eqn:E; [|reflexivity].
      apply marker_bracket_startswith in E.
      apply contains_startswith in H. congruence. }
    cbn [Re.search]. rewrite Hm. apply IH.
    cbn [contains] in H. apply orb_false_iff in H. tauto.
Qed.
End ReFacts.

(** ** The data frame *)

Module PdFacts.
Import Pd.

Lemma has_column_elem (df : DataFrame) (c : string) (r : asset) :
  In r df -> is_Some (r !! c) -> has_column df c = true.
Proof.
  intros Hin Hc. unfold has_column. apply existsb_exists.
  exists r. split; [exact Hin|]. now apply bool_decide_eq_true.
Qed.

Lemma eq_str_is_Some (x c : string) (r : asset) :
  eq_str x (cell c r) = true -> is_Some (r !! c).
Proof.
  unfold cell. destruct (r !! c) as [j|]; [eauto|]. simpl. discriminate.
Qed.

(** An entry that matches carries both keys the mask reads. *)
Lemma matches_columns (cont res : string) (df : DataFrame) (r : asset) :
  In r df -> matches cont res r = true ->
  has_column df "container" = true /\ has_column df "display_name" = true.
Proof.
  intros Hin Hm. unfold matches in Hm. apply andb_true_iff in Hm as [H1 H2].
  split; eapply has_column_elem; eauto using eq_str_is_Some.
Qed.

(** The mask of [get_vidurl] keeps the entries that match. *)
Lemma select_mask (cont res c : string) (df : DataFrame) :
  select (zip_with andb (map (eq_str cont) (map (cell "container") df))
                        (map (eq_str res) (map (cell "display_name") df)))
         (map (cell c) df)
  = map (cell c) (List.filter (matches cont res) df).
Proof.
  induction df as [|r df IH]; [reflexivity|].
  cbn [map zip_with select List.filter]. unfold matches at 1.
  destruct (eq_str cont (cell "container" r) && eq_str res (cell "display_name" r));
    cbn [select map]; now rewrite IH.
Qed.

Lemma getitem_present (df : DataFrame) (c : string) :
  has_column df c = true -> getitem df c = Ok (map (cell c) df).
Proof. unfold getitem. now intros ->. Qed.

Lemma getitem_absent (df : DataFrame) (c : string) :
  has_column df c = false -> getitem df c = Raise (KeyError c).
Proof. unfold getitem. now intros ->. Qed.
End PdFacts.

(** ** The methods *)

Ltac run :=
  cbv [mbind M_bind mret M_ret raise get_self update_self emit print lift
       try_except try_except_ValueError try_except_return];
  cbn [self out fst snd].

Section Properties.

Variable net : string -> option response.
Variable json_loads : string -> option (list asset).
Variable open_wb : string -> outcome unit.

(** [get_assets] when the pattern finds no match in the fetched page. *)
Lemma get_assets_try_no_match (v : Video) (w : list event) (r : response) :
  net (srcpage v) = Some r ->
  Re.search (content r) = None ->
  get_assets_try net json_loads {| self := v; out := w |}
  = (Raise AssetNotFoundError,
     {| self := v; out := w ++ [Fetch (srcpage v)] |}).
Proof.
  intros Hnet Hpage. unfold get_assets_try, requests_get. run.
  rewrite Hnet. run. now rewrite Hpage.
Qed.

Lemma get_assets_no_match (v : Video) (w : list event) (r : response) :
  net (srcpage v) = Some r ->
  Re.search (content r) = None ->
  get_assets net json_loads {| self := v; out := w |}
  = (Ok None,
     {| self := v;
        out := w ++ [Fetch (srcpage v); Print asset_failure_message] |}).
Proof.
  intros Hnet Hpage. unfold get_assets. run.
  rewrite (get_assets_try_no_match v w r Hnet Hpage). run.
  now rewrite <- app_assoc.
Qed.

(** C8: when the fetched page lacks the manifest marker, the [try] block
    of [get_assets] raises [AssetNotFoundError]; [get_assets] itself
    catches it, prints the console message and returns [None] to its
    caller, and the job's asset list stays as it was (unset). *)
Theorem get_assets_marker_absent (v : Video) (w : list event) (r : response) :
  net (srcpage v) = Some r ->
  PyStr.contains Re.marker (content r) = false ->
  get_assets_try net json_loads {| self := v; out := w |}
    = (Raise AssetNotFoundError,
       {| self := v; out := w ++ [Fetch (srcpage v)] |})
  /\ get_assets net json_loads {| self := v; out := w |}
    = (Ok None,
       {| self := v;
          out := w ++ [Fetch (srcpage v); Print asset_failure_message] |}).
Proof.
  intros Hnet Hpage. apply ReFacts.search_no_marker in Hpage. split.
  - now apply get_assets_try_no_match with (r := r).
  - now apply get_assets_no_match with (r := r).
Qed.

(** [get_vidurl] on a job whose frame is set and has the three columns
    it reads: the outcome is decided by the entries that match. *)
Lemma get_vidurl_frame (v : Video) (w : list event) (df : Pd.DataFrame) :
  assets v = Some df ->
  Pd.has_column df "container" = true ->
  Pd.has_column df "display_name" = true ->
  Pd.has_column df "url" = true ->
  get_vidurl net json_loads {| self := v; out := w |}
  = match map (Pd.cell "url")
              (List.filter (matches (container v) (resolution v)) df) with
    | [JStr s] =>
        let u := PyStr.replace ".bin" ("." ++ container v) s in
        (Ok (Some u), {| self := set_vidurl (Some u) v; out := w |})
    | [JOther] => (Raise AttributeError, {| self := v; out := w |})
    | _ => (Ok (vidurl v), {| self := v; out := w |})
    end.
Proof.
  intros Ha Hc Hd Hu. unfold get_vidurl. run. rewrite Ha. run.
  rewrite Ha. unfold Pd.loc.
  rewrite !PdFacts.getitem_present by assumption. run.
  rewrite PdFacts.select_mask.
  destruct (map (Pd.cell "url") (List.filter _ df)) as [|[s|] [|y l]];
    try reflexivity.
Qed.

(** C3: when exactly one entry of the asset list has the requested
    container (mp4) and the requested resolution label, [get_vidurl]
    returns the URL of that entry with [.bin] replaced by [.mp4] and
    stores it in the job's [vidurl]. *)
Theorem get_vidurl_unique_match
    (v : Video) (w : list event) (df : Pd.DataFrame) (r : asset) (u : string) :
  assets v = Some df ->
  container v = "mp4" ->
  List.filter (matches "mp4" (resolution v)) df = [r] ->
  r !! "url" = Some (JStr u) ->
  get_vidurl net json_loads {| self := v; out := w |}
  = (Ok (Some (PyStr.replace ".bin" ".mp4" u)),
     {| self := set_vidurl (Some (PyStr.replace ".bin" ".mp4" u)) v; out := w |}).
Proof.
  intros Ha Hc Hf Hu.
  assert (In r df /\ matches "mp4" (resolution v) r = true) as [Hin Hm].
  { apply filter_In. rewrite Hf. now left. }
  destruct (PdFacts.matches_columns _ _ _ _ Hin Hm) as [H1 H2].
  assert (Pd.has_column df "url" = true) as H3
    by (eapply PdFacts.has_column_elem; eauto).
  rewrite (get_vidurl_frame v w df Ha H1 H2 H3).
  rewrite Hc, Hf. cbn [map]. unfold Pd.cell. rewrite Hu. reflexivity.
Qed.

(** Zero or several matching entries in a frame that has the three
    columns: [get_vidurl] returns the job's [vidurl] as it was and
    changes nothing. *)
Lemma get_vidurl_no_unique_match (v : Video) (w : list event) (df : Pd.DataFrame) :
  assets v = Some df ->
  Pd.has_column df "container" = true ->
  Pd.has_column df "display_name" = true ->
  Pd.has_column df "url" = true ->
  length (List.filter (matches (container v) (resolution v)) df) <> 1 ->
  get_vidurl net json_loads {| self := v; out := w |}
  = (Ok (vidurl v), {| self := v; out := w |}).
Proof.
  intros Ha H1 H2 H3 Hn. rewrite (get_vidurl_frame v w df Ha H1 H2 H3).
  destruct (List.filter _ df) as [|x [|y l]].
  - reflexivity.
  - now contradiction Hn.
  - cbn [map]. now destruct (Pd.cell "url" x).
Qed.

(** C4: on the frame of an empty manifest no entry matches, yet
    [get_vidurl] does not return: the frame has no column, and reading
    [df['container']] raises [KeyError]. *)
Theorem get_vidurl_empty_manifest (v : Video) (w : list event) :
  List.filter (matches (container v) (resolution v)) [] = []
  /\ get_vidurl net json_loads {| self := set_assets (Some []) v; out := w |}
     = (Raise (KeyError "container"),
        {| self := set_assets (Some []) v; out := w |}).
Proof. split; reflexivity. Qed.

(** C9: the rewriting of the matched URL replaces [.bin] wherever it
    occurs, by a dot and the container: an occurrence between any two
    parts of the URL is rewritten, and so are those of both parts.  For
    a URL with [.bin] in an inner path segment, [get_vidurl] rewrites
    the inner occurrence as well as the final one. *)
Theorem replace_every_bin :
  (forall cont a b : string,
      PyStr.replace ".bin" ("." ++ cont) (a ++ ".bin" ++ b)
      = PyStr.replace ".bin" ("." ++ cont) a ++ ("." ++ cont)
        ++ PyStr.replace ".bin" ("." ++ cont) b)
  /\ fst (get_vidurl net json_loads
            {| self := set_assets
                         (Some [ {[ "container" := JStr "mp4";
                                    "display_name" := JStr "224p";
                                    "url" := JStr "http://e.net/a.bin/v.bin" ]} ])
                         (Video_init None "abc123" "224p" "mp4");
               out := [] |})
     = Ok (Some "http://e.net/a.mp4/v.mp4").
Proof.
  split.
  - intros cont a b. apply PyStrFacts.replace_bin.
  - vm_compute. reflexivity.
Qed.

(** The destination step of [download] on a job with a resolved URL. *)
Lemma destination_resolved (v : Video) (u : string) (st : state) :
  vidurl v = Some u -> destination v st = (Ok (dest_path v u), st).
Proof.
  intros Hu. unfold destination, dest_path. rewrite Hu.
  now destruct (vid_name v).
Qed.

(** [download] on a job whose URL is resolved: the download step alone. *)
Lemma download_resolved (v : Video) (w : list event) (u : string) :
  vidurl v = Some u ->
  download net json_loads open_wb {| self := v; out := w |}
  = (stream_outcome net open_wb v u,
     {| self := v; out := w ++ stream_events net open_wb v u |}).
Proof.
  intros Hu. unfold download. run. rewrite Hu. run.
  rewrite (destination_resolved v u _ Hu). run. rewrite ?Hu.
  unfold requests_get_stream, stream_outcome, stream_events. run.
  destruct (net u) as [r|]; run.
  - destruct (bool_decide (status_code r = 200%Z)); run; rewrite ?Hu.
    + destruct (py_open open_wb (dest_path v u)) as [[]|e]; run; rewrite ?Hu.
      * now rewrite <- app_assoc.
      * reflexivity.
    + reflexivity.
  - now rewrite <- app_assoc.
Qed.


(** With the frame set, [get_vidurl] does not fetch: it adds no event. *)
Lemma get_vidurl_fetched_silent (v : Video) (w : list event) (df : Pd.DataFrame) :
  assets v = Some df ->
  out (snd (get_vidurl net json_loads {| self := v; out := w |})) = w.
Proof.
  intros Ha. unfold get_vidurl. run. rewrite Ha. run. rewrite Ha.
  unfold Pd.loc.
  destruct (Pd.getitem df "container") as [c|e]; run; [|reflexivity].
  destruct (Pd.getitem df "display_name") as [d|e]; run; [|reflexivity].
  destruct (Pd.getitem df "url") as [col|e]; run; [|reflexivity].
  destruct (Pd.select _ col) as [|[s|] [|y l]]; reflexivity.
Qed.

(** C7: on a job whose assets and URL are both set, a call of [download]
    does the download step alone, and so does a second call: the object
    is left as it was (no selection is made, whatever the frame holds),
    and no call adds a fetch of the manifest page to the trace.  The
    selection step on its own, run with the frame set, fetches nothing
    either. *)
Theorem download_twice_resolved
    (v : Video) (w : list event) (df : Pd.DataFrame) (u : string) :
  assets v = Some df ->
  vidurl v = Some u ->
  let once := {| self := v; out := w ++ stream_events net open_wb v u |} in
  let twice := {| self := v;
                  out := (w ++ stream_events net open_wb v u) ++ stream_events net open_wb v u |} in
  download net json_loads open_wb {| self := v; out := w |}
  = (stream_outcome net open_wb v u, once)
  /\ download net json_loads open_wb once = (stream_outcome net open_wb v u, twice)
  /\ (forall url, ~ In (Fetch url) (stream_events net open_wb v u))
  /\ In (FetchStream u) (stream_events net open_wb v u)
  /\ out (snd (get_vidurl net json_loads {| self := v; out := w |})) = w.
Proof.
  intros Ha Hu once twice.
  split; [now apply download_resolved|].
  split; [now apply download_resolved|].
  split; [|split].
  - intros url. unfold stream_events.
    destruct (net u) as [r|];
      [destruct (bool_decide _); [destruct (py_open _ _)|]|]; cbn [In];
      intuition discriminate.
  - now left.
  - now apply get_vidurl_fetched_silent with (df := df).
Qed.

(** [get_vidurl] on a fresh job whose page lacks the marker: [df] is
    [None], and [df.loc] raises. *)
Lemma get_vidurl_marker_absent (v : Video) (w : list event) (r : response) :
  assets v = None ->
  net (srcpage v) = Some r ->
  PyStr.contains Re.marker (content r) = false ->
  get_vidurl net json_loads {| self := v; out := w |}
  = (Raise AttributeError,
     {| self := v;
        out := w ++ [Fetch (srcpage v); Print asset_failure_message] |}).
Proof.
  intros Ha Hnet Hpage. apply ReFacts.search_no_marker in Hpage.
  unfold get_vidurl. run.
  rewrite Ha, (get_assets_no_match v w r Hnet Hpage). run. now rewrite Ha.
Qed.

Lemma download_marker_absent (v : Video) (w : list event) (r : response) :
  assets v = None ->
  vidurl v = None ->
  net (srcpage v) = Some r ->
  PyStr.contains Re.marker (content r) = false ->
  download net json_loads open_wb {| self := v; out := w |}
  = (Raise AttributeError,
     {| self := v;
        out := w ++ [Fetch (srcpage v); Print asset_failure_message] |}).
Proof.
  intros Ha Hu Hnet Hpage. unfold download. run. rewrite Hu.
  rewrite (get_vidurl_marker_absent v w r Ha Hnet Hpage). reflexivity.
Qed.

Lemma download_vid_marker_absent
    (name : option string) (vid_id : string) (w : list event) (r : response) :
  net (baseaddr ++ vid_id) = Some r ->
  PyStr.contains Re.marker (content r) = false ->
  download_vid net json_loads open_wb (name, vid_id) w
  = (Raise AttributeError,
     (w ++ [Fetch (baseaddr ++ vid_id)%string; Print asset_failure_message])%list).
Proof.
  intros Hnet Hpage. unfold download_vid. cbn [fst snd].
  rewrite (download_marker_absent (Video_init name vid_id "224p" "mp4") w r
             eq_refl eq_refl Hnet Hpage).
  reflexivity.
Qed.

(** C1: a job whose fetched page lacks the manifest marker does not
    return: [get_assets] has stored no frame, [get_vidurl] evaluates
    [df.loc] on [None] and raises [AttributeError], which nothing
    catches: it leaves [get_vidurl], [download] and [download_vid].  In
    the batch of this one row the loop over the results re-raises it:
    the script ends with the exception and the closing line is not
    printed. *)
Theorem missing_marker_aborts_batch
    (name : option string) (vid_id : string) (w : list event) (r : response) :
  net (baseaddr ++ vid_id) = Some r ->
  PyStr.contains Re.marker (content r) = false ->
  download_vid net json_loads open_wb (name, vid_id) w
  = (Raise AttributeError,
     (w ++ [Fetch (baseaddr ++ vid_id)%string; Print asset_failure_message])%list)
  /\ main net json_loads open_wb [(name, vid_id)] w
  = (Raise AttributeError,
     (w ++ [Fetch (baseaddr ++ vid_id)%string; Print asset_failure_message])%list).
Proof.
  intros Hnet Hpage.
  pose proof (download_vid_marker_absent name vid_id w r Hnet Hpage) as Hjob.
  split; [exact Hjob|].
  unfold main. cbn [consume]. now rewrite Hjob.
Qed.

(** C2: [download_vid] drops the value of [download]: for a job whose
    [download] returns the resolved URL, [download_vid] returns [None],
    and the line the loop prints for it is [None], not the URL. *)
Theorem resolved_url_not_printed
    (it : item) (w : list event) (u : string) (st : state) :
  download net json_loads open_wb
    {| self := Video_init (fst it) (snd it) "224p" "mp4"; out := w |}
  = (Ok (Some u), st) ->
  download_vid net json_loads open_wb it w = (Ok None, out st)
  /\ main net json_loads open_wb [it] w
     = (Ok tt, (out st ++ [Print "None"; PrintElapsed])%list).
Proof.
  intros Hd.
  assert (download_vid net json_loads open_wb it w = (Ok None, out st)) as Hjob
    by (unfold download_vid; now rewrite Hd).
  split; [exact Hjob|].
  unfold main. cbn [consume]. rewrite Hjob. cbn [py_str].
  now rewrite <- app_assoc.
Qed.

End Properties.

(** C5: the constructor keeps a resolution among 224p, 360p, 720p,
    1080p and 4k and puts 1080p for any other string; it keeps the
    container mp4 and puts mp4 for any other string.  It is a total
    function: no pair of strings makes it raise. *)
Theorem Video_init_defaults (name : option string) (vid_id res cont : string) :
  let v := Video_init name vid_id res cont in
  ((res = "224p" \/ res = "360p" \/ res = "720p" \/ res = "1080p" \/ res = "4k") ->
     resolution v = res)
  /\ (~ (res = "224p" \/ res = "360p" \/ res = "720p" \/ res = "1080p" \/ res = "4k") ->
     resolution v = "1080p")
  /\ (cont = "mp4" -> container v = cont)
  /\ (cont <> "mp4" -> container v = "mp4").
Proof.
  cbn [Video_init resolution container]. unfold recognised_resolutions, recognised_containers.
  repeat split; intros H; case_decide as Hd; try reflexivity;
    rewrite ?elem_of_union, ?elem_of_singleton in Hd; tauto.
Qed.


(** ** The statements at work on the example world *)

Lemma get_assets_marker_absent_witness :
  Demo.net (srcpage Demo.job_nosuch) = Some Demo.resp_nosuch
  /\ PyStr.contains Re.marker (content Demo.resp_nosuch) = false
  /\ get_assets Demo.net Demo.json_loads {| self := Demo.job_nosuch; out := [] |}
     = (Ok None,
        {| self := Demo.job_nosuch;
           out := [Fetch (srcpage Demo.job_nosuch); Print asset_failure_message] |}).
Proof.
  assert (Demo.net (srcpage Demo.job_nosuch) = Some Demo.resp_nosuch) as H1
    by reflexivity.
  assert (PyStr.contains Re.marker (content Demo.resp_nosuch) = false) as H2
    by reflexivity.
  split; [exact H1|]. split; [exact H2|].
  exact (proj2 (get_assets_marker_absent Demo.net Demo.json_loads
                  Demo.job_nosuch [] Demo.resp_nosuch H1 H2)).
Defined.

Lemma get_vidurl_unique_match_witness :
  assets Demo.job_fetched = Some [Demo.rendition]
  /\ container Demo.job_fetched = "mp4"
  /\ List.filter (matches "mp4" (resolution Demo.job_fetched)) [Demo.rendition]
     = [Demo.rendition]
  /\ Demo.rendition !! "url" = Some (JStr "http://e.net/d/file.bin")
  /\ get_vidurl Demo.net Demo.json_loads {| self := Demo.job_fetched; out := [] |}
     = (Ok (Some "http://e.net/d/file.mp4"),
        {| self := Demo.job_resolved; out := [] |}).
Proof.
  assert (List.filter (matches "mp4" (resolution Demo.job_fetched)) [Demo.rendition]
          = [Demo.rendition]) as H3 by reflexivity.
  assert (Demo.rendition !! "url" = Some (JStr "http://e.net/d/file.bin")) as H4
    by reflexivity.
  split; [reflexivity|]. split; [reflexivity|].
  split; [exact H3|]. split; [exact H4|].
  exact (get_vidurl_unique_match Demo.net Demo.json_loads Demo.job_fetched []
           [Demo.rendition] Demo.rendition "http://e.net/d/file.bin"
           eq_refl eq_refl H3 H4).
Defined.



Lemma download_twice_resolved_witness :
  assets Demo.job_resolved = Some [Demo.rendition]
  /\ vidurl Demo.job_resolved = Some "http://e.net/d/file.mp4"
  /\ download Demo.net Demo.json_loads Demo.open_wb
       {| self := Demo.job_resolved;
          out := [FetchStream "http://e.net/d/file.mp4";
                  WriteFile "MyVideo.mp4" "VIDEO"] |}
     = (Ok (Some "http://e.net/d/file.mp4"),
        {| self := Demo.job_resolved;
           out := [FetchStream "http://e.net/d/file.mp4";
                   WriteFile "MyVideo.mp4" "VIDEO";
                   FetchStream "http://e.net/d/file.mp4";
                   WriteFile "MyVideo.mp4" "VIDEO"] |}).
Proof.
  split; [reflexivity|]. split; [reflexivity|].
  exact (proj1 (proj2 (download_twice_resolved Demo.net Demo.json_loads
                         Demo.open_wb Demo.job_resolved [] [Demo.rendition]
                         "http://e.net/d/file.mp4" eq_refl eq_refl))).
Defined.

Lemma missing_marker_aborts_batch_witness :
  Demo.net (baseaddr ++ "nosuch") = Some Demo.resp_nosuch
  /\ PyStr.contains Re.marker (content Demo.resp_nosuch) = false
  /\ main Demo.net Demo.json_loads Demo.open_wb [(Some "A", "nosuch")] []
     = (Raise AttributeError,
        [Fetch "http://fast.wistia.net/embed/iframe/nosuch";
         Print asset_failure_message]).
Proof.
  split; [reflexivity|]. split; [reflexivity|].
  exact (proj2 (missing_marker_aborts_batch Demo.net Demo.json_loads Demo.open_wb
                  (Some "A") "nosuch" [] Demo.resp_nosuch eq_refl eq_refl)).
Defined.

Lemma resolved_url_not_printed_witness :
  download Demo.net Demo.json_loads Demo.open_wb
    {| self := Video_init (Some "MyVideo") "abc123" "224p" "mp4"; out := [] |}
  = (Ok (Some "http://e.net/d/file.mp4"),
     {| self := Demo.job_resolved; out := Demo.trace_abc123 |})
  /\ main Demo.net Demo.json_loads Demo.open_wb [(Some "MyVideo", "abc123")] []
     = (Ok tt, (Demo.trace_abc123 ++ [Print "None"; PrintElapsed])%list).
Proof.
  assert (download Demo.net Demo.json_loads Demo.open_wb
            {| self := Video_init (Some "MyVideo") "abc123" "224p" "mp4"; out := [] |}
          = (Ok (Some "http://e.net/d/file.mp4"),
             {| self := Demo.job_resolved; out := Demo.trace_abc123 |})) as H1
    by (vm_compute; reflexivity).
  split; [exact H1|].
  exact (proj2 (resolved_url_not_printed Demo.net Demo.json_loads Demo.open_wb
                  (Some "MyVideo", "abc123") [] "http://e.net/d/file.mp4"
                  {| self := Demo.job_resolved; out := Demo.trace_abc123 |} H1)).
Defined.


Lemma Video_init_defaults_witness :
  resolution (Video_init None "abc123" "480p" "webm") = "1080p"
  /\ container (Video_init None "abc123" "480p" "webm") = "mp4"
  /\ resolution (Video_init None "abc123" "4k" "mp4") = "4k"
  /\ container (Video_init None "abc123" "4k" "mp4") = "mp4".
Proof.
  split; [|split; [|split]].
  - apply (Video_init_defaults None "abc123" "480p" "webm").
    intros H; repeat destruct H as [H|H]; discriminate H.
  - apply (Video_init_defaults None "abc123" "480p" "webm"). discriminate.
  - apply (Video_init_defaults None "abc123" "4k" "mp4"). tauto.
  - exact (proj1 (proj2 (proj2 (Video_init_defaults None "abc123" "4k" "mp4")))
             eq_refl).
Defined.

(** The empty manifest reaches [get_vidurl] through the program: the job
    of a page that carries it raises, and the loop with it. *)
Example empty_manifest_job :
  main Demo.net Demo.json_loads Demo.open_wb [(Some "A", "empty1")] []
  = (Raise (KeyError "container"),
     [Fetch "http://fast.wistia.net/embed/iframe/empty1"]).
Proof. vm_compute. reflexivity. Qed.

(** The scenario of the specification, job by job. *)
Example scenario_file_written :
  download Demo.net Demo.json_loads Demo.open_wb {| self := Demo.job_fresh; out := [] |}
  = (Ok (Some "http://e.net/d/file.mp4"),
     {| self := Demo.job_resolved; out := Demo.trace_abc123 |}).
Proof. vm_compute. reflexivity. Qed.

(** * Further properties of the methods *)

Section Methods.

Variable net : string -> option response.
Variable json_loads : string -> option (list asset).
Variable open_wb : string -> outcome unit.

(** [get_assets], path by path. *)
Lemma get_assets_cases (v : Video) (w : list event) :
  get_assets net json_loads {| self := v; out := w |}
  = match net (srcpage v) with
    | None =>
        (Ok None,
         {| self := v; out := w ++ [Fetch (srcpage v); Print asset_failure_message] |})
    | Some r =>
        match Re.search (content r) with
        | None =>
            (Ok None,
             {| self := v;
                out := w ++ [Fetch (srcpage v); Print asset_failure_message] |})
        | Some g =>
            match json_loads g with
            | Some l =>
                (Ok (Some l),
                 {| self := set_assets (Some l) v; out := w ++ [Fetch (srcpage v)] |})
            | None =>
                (Ok None,
                 {| self := v;
                    out := w ++ [Fetch (srcpage v);
                                 Print "Error loading JSON string";
                                 Print asset_failure_message] |})
            end
        end
    end.
Proof.
  unfold get_assets, get_assets_try, requests_get, pd_DataFrame. run.
  destruct (net (srcpage v)) as [r|]; run.
  - destruct (Re.search (content r)) as [g|]; run.
    + destruct (json_loads g) as [l|]; run.
      * reflexivity.
      * now rewrite <- !app_assoc.
    + now rewrite <- app_assoc.
  - now rewrite <- app_assoc.
Qed.

(** X1: [get_assets] never raises, whatever the network and the decoder
    do.  It sends exactly one request, to the page of the job, and apart
    from it only prints; it either stores a frame and returns it, or
    stores nothing and returns [None]. *)
Theorem get_assets_contained (v : Video) (w : list event) :
  exists (a : option Pd.DataFrame) (t : list event),
    get_assets net json_loads {| self := v; out := w |}
    = (Ok a,
       {| self := match a with Some df => set_assets (Some df) v | None => v end;
          out := w ++ Fetch (srcpage v) :: t |})
    /\ quiet t.
Proof.
  rewrite get_assets_cases.
  destruct (net (srcpage v)) as [r|];
    [destruct (Re.search (content r)) as [g|];
     [destruct (json_loads g) as [l|]|]|].
  - exists (Some l), []. now repeat split.
  - exists None, [Print "Error loading JSON string"; Print asset_failure_message].
    now repeat split.
  - exists None, [Print asset_failure_message]. now repeat split.
  - exists None, [Print asset_failure_message]. now repeat split.
Qed.

(** X2: when the page of the job yields a manifest, [get_assets] stores
    the frame of its entries, returns it, and prints nothing. *)
Theorem get_assets_stores_manifest (v : Video) (w : list event) (l : list asset) :
  manifest net json_loads (srcpage v) = Some l ->
  get_assets net json_loads {| self := v; out := w |}
  = (Ok (Some l),
     {| self := set_assets (Some l) v; out := w ++ [Fetch (srcpage v)] |}).
Proof.
  unfold manifest. intros Hm. rewrite get_assets_cases.
  destruct (net (srcpage v)) as [r|]; [|discriminate].
  destruct (Re.search (content r)) as [g|]; [|discriminate].
  now rewrite Hm.
Qed.

(** X3: when the pattern matches but the group is not valid JSON,
    [get_assets] prints the decoding message and then, because the frame
    constructor refuses the undecoded string, the failure message; it
    stores nothing and returns [None]. *)
Theorem get_assets_bad_json (v : Video) (w : list event) (r : response) (g : string) :
  net (srcpage v) = Some r ->
  Re.search (content r) = Some g ->
  json_loads g = None ->
  get_assets net json_loads {| self := v; out := w |}
  = (Ok None,
     {| self := v;
        out := w ++ [Fetch (srcpage v);
                     Print "Error loading JSON string";
                     Print asset_failure_message] |}).
Proof. intros Hn Hs Hj. rewrite get_assets_cases. now rewrite Hn, Hs, Hj. Qed.

(** X4: when the request for the page fails, [get_assets] prints the
    failure message, stores nothing and returns [None]. *)
Theorem get_assets_request_fails (v : Video) (w : list event) :
  net (srcpage v) = None ->
  get_assets net json_loads {| self := v; out := w |}
  = (Ok None,
     {| self := v;
        out := w ++ [Fetch (srcpage v); Print asset_failure_message] |}).
Proof. intros Hn. rewrite get_assets_cases. now rewrite Hn. Qed.

(** [get_vidurl] on a job whose frame is set, column by column. *)
Lemma get_vidurl_set_cases (v : Video) (w : list event) (df : Pd.DataFrame) :
  assets v = Some df ->
  get_vidurl net json_loads {| self := v; out := w |}
  = if negb (Pd.has_column df "container")
    then (Raise (KeyError "container"), {| self := v; out := w |})
    else if negb (Pd.has_column df "display_name")
    then (Raise (KeyError "display_name"), {| self := v; out := w |})
    else if negb (Pd.has_column df "url")
    then (Raise (KeyError "url"), {| self := v; out := w |})
    else
      match map (Pd.cell "url")
                (List.filter (matches (container v) (resolution v)) df) with
      | [JStr s] =>
          let u := PyStr.replace ".bin" ("." ++ container v) s in
          (Ok (Some u), {| self := set_vidurl (Some u) v; out := w |})
      | [JOther] => (Raise AttributeError, {| self := v; out := w |})
      | _ => (Ok (vidurl v), {| self := v; out := w |})
      end.
Proof.
  intros Ha.
  destruct (Pd.has_column df "container") eqn:Hc; cbn [negb].
  2:{ unfold get_vidurl. run. rewrite Ha. run. rewrite Ha.
      now rewrite (PdFacts.getitem_absent _ _ Hc). }
  destruct (Pd.has_column df "display_name") eqn:Hd; cbn [negb].
  2:{ unfold get_vidurl. run. rewrite Ha. run. rewrite Ha.
      rewrite (PdFacts.getitem_present _ _ Hc). run.
      now rewrite (PdFacts.getitem_absent _ _ Hd). }
  destruct (Pd.has_column df "url") eqn:Hu; cbn [negb].
  2:{ unfold get_vidurl. run. rewrite Ha. run. rewrite Ha.
      rewrite (PdFacts.getitem_present _ _ Hc). run.
      rewrite (PdFacts.getitem_present _ _ Hd). run.
      unfold Pd.loc. now rewrite (PdFacts.getitem_absent _ _ Hu). }
  now apply get_vidurl_frame.
Qed.

(** X5: a frame that lacks one of the three columns makes [get_vidurl]
    raise [KeyError] for the first one missing, in the order container,
    display_name, url; the job is left as it was. *)
Theorem get_vidurl_missing_column (v : Video) (w : list event) (df : Pd.DataFrame) :
  assets v = Some df ->
  (Pd.has_column df "container" = false ->
   get_vidurl net json_loads {| self := v; out := w |}
   = (Raise (KeyError "container"), {| self := v; out := w |}))
  /\ (Pd.has_column df "container" = true ->
      Pd.has_column df "display_name" = false ->
      get_vidurl net json_loads {| self := v; out := w |}
      = (Raise (KeyError "display_name"), {| self := v; out := w |}))
  /\ (Pd.has_column df "container" = true ->
      Pd.has_column df "display_name" = true ->
      Pd.has_column df "url" = false ->
      get_vidurl net json_loads {| self := v; out := w |}
      = (Raise (KeyError "url"), {| self := v; out := w |})).
Proof.
  intros Ha. rewrite (get_vidurl_set_cases v w df Ha).
  split; [|split].
  - now intros ->.
  - now intros -> ->.
  - now intros -> -> ->.
Qed.

(** X6: when the one matching entry has no string under [url] (the key
    is missing from it, or holds a number or null), [get_vidurl] raises
    [AttributeError] and stores nothing. *)
Theorem get_vidurl_url_not_string
    (v : Video) (w : list event) (df : Pd.DataFrame) (r : asset) :
  assets v = Some df ->
  Pd.has_column df "url" = true ->
  List.filter (matches (container v) (resolution v)) df = [r] ->
  Pd.cell "url" r = JOther ->
  get_vidurl net json_loads {| self := v; out := w |}
  = (Raise AttributeError, {| self := v; out := w |}).
Proof.
  intros Ha Hu Hf Hr.
  assert (In r df /\ matches (container v) (resolution v) r = true) as [Hin Hm].
  { apply filter_In. rewrite Hf. now left. }
  destruct (PdFacts.matches_columns _ _ _ _ Hin Hm) as [H1 H2].
  rewrite (get_vidurl_set_cases v w df Ha), H1, H2, Hu, Hf.
  cbn [negb map]. now rewrite Hr.
Qed.

(** X9: with the three columns present and zero or several matching
    entries, [get_vidurl] resolves nothing: it returns the [vidurl] the
    job had before the call (a URL stored earlier is returned again) and
    leaves the job as it was. *)
Theorem get_vidurl_keeps_previous
    (v : Video) (w : list event) (df : Pd.DataFrame) :
  assets v = Some df ->
  Pd.has_column df "container" = true ->
  Pd.has_column df "display_name" = true ->
  Pd.has_column df "url" = true ->
  length (List.filter (matches (container v) (resolution v)) df) <> 1 ->
  get_vidurl net json_loads {| self := v; out := w |}
  = (Ok (vidurl v), {| self := v; out := w |}).
Proof.
  intros Ha H1 H2 H3 Hn.
  rewrite (get_vidurl_set_cases v w df Ha), H1, H2, H3. cbn [negb].
  destruct (List.filter _ df) as [|x [|y l]].
  - reflexivity.
  - now contradiction Hn.
  - cbn [map]. now destruct (Pd.cell "url" x).
Qed.

(** X22: on a job whose frame is set, [get_vidurl] is idempotent: a
    second call returns what the first returned, or raises what it
    raised, and leaves the job as the first call left it. *)
Theorem get_vidurl_idempotent (v : Video) (w : list event) (df : Pd.DataFrame) :
  assets v = Some df ->
  get_vidurl net json_loads
    (snd (get_vidurl net json_loads {| self := v; out := w |}))
  = get_vidurl net json_loads {| self := v; out := w |}.
Proof.
  intros Ha. rewrite (get_vidurl_set_cases v w df Ha).
  destruct (Pd.has_column df "container") eqn:E1; cbn [negb snd];
    [|now rewrite (get_vidurl_set_cases v w df Ha), E1].
  destruct (Pd.has_column df "display_name") eqn:E2; cbn [negb snd];
    [|now rewrite (get_vidurl_set_cases v w df Ha), E1, E2].
  destruct (Pd.has_column df "url") eqn:E3; cbn [negb snd];
    [|now rewrite (get_vidurl_set_cases v w df Ha), E1, E2, E3].
  destruct (map (Pd.cell "url") (List.filter _ df)) as [|[s|] [|y t]] eqn:Em;
    cbn [snd];
    try (rewrite (get_vidurl_set_cases v w df Ha), E1, E2, E3; cbn [negb];
         now rewrite Em).
  rewrite (get_vidurl_set_cases (set_vidurl _ v) w df Ha), E1, E2, E3.
  cbn [negb container resolution set_vidurl]. now rewrite Em.
Qed.

(** X7: [download] on a job that has a name, whose frame has the three
    columns but no single matching entry: no URL is resolved, the
    request library refuses [None], and [download] prints the error line
    and returns [None] without sending a request or writing a file. *)
Theorem download_unresolved_named
    (v : Video) (w : list event) (df : Pd.DataFrame) (n : string) :
  assets v = Some df ->
  vidurl v = None ->
  vid_name v = Some n ->
  Pd.has_column df "container" = true ->
  Pd.has_column df "display_name" = true ->
  Pd.has_column df "url" = true ->
  length (List.filter (matches (container v) (resolution v)) df) <> 1 ->
  download net json_loads open_wb {| self := v; out := w |}
  = (Ok None, {| self := v; out := w ++ [Print ("Error downloading " ++ n)] |}).
Proof.
  intros Ha Hu Hn H1 H2 H3 Hm. unfold download. run. rewrite Hu.
  rewrite (get_vidurl_no_unique_match net json_loads v w df Ha H1 H2 H3 Hm). run.
  unfold destination. rewrite Hn. run. rewrite Hu.
  unfold requests_get_stream. run. reflexivity.
Qed.

(** X8: the same job without a name: the destination is taken from the
    URL, which is [None], and [download] raises [AttributeError]. *)
Theorem download_unresolved_unnamed
    (v : Video) (w : list event) (df : Pd.DataFrame) :
  assets v = Some df ->
  vidurl v = None ->
  vid_name v = None ->
  Pd.has_column df "container" = true ->
  Pd.has_column df "display_name" = true ->
  Pd.has_column df "url" = true ->
  length (List.filter (matches (container v) (resolution v)) df) <> 1 ->
  download net json_loads open_wb {| self := v; out := w |}
  = (Raise AttributeError, {| self := v; out := w |}).
Proof.
  intros Ha Hu Hn H1 H2 H3 Hm. unfold download. run. rewrite Hu.
  rewrite (get_vidurl_no_unique_match net json_loads v w df Ha H1 H2 H3 Hm). run.
  unfold destination. now rewrite Hn, Hu.
Qed.

(** ** A whole job *)

(** [get_vidurl] on a job without a frame: with a manifest it goes on as
    from the job with the frame stored; without one it raises. *)
Lemma get_vidurl_fresh_manifest (v : Video) (w : list event) (l : list asset) :
  assets v = None ->
  manifest net json_loads (srcpage v) = Some l ->
  get_vidurl net json_loads {| self := v; out := w |}
  = get_vidurl net json_loads
      {| self := set_assets (Some l) v; out := w ++ [Fetch (srcpage v)] |}.
Proof.
  unfold manifest. intros Ha Hm. unfold get_vidurl at 1. run.
  rewrite Ha, get_assets_cases.
  destruct (net (srcpage v)) as [r|]; [|discriminate].
  destruct (Re.search (content r)) as [g|]; [|discriminate].
  rewrite Hm. run. unfold get_vidurl. run. reflexivity.
Qed.

Lemma get_vidurl_fresh_no_manifest (v : Video) (w : list event) :
  assets v = None ->
  manifest net json_loads (srcpage v) = None ->
  exists t, quiet t
    /\ get_vidurl net json_loads {| self := v; out := w |}
       = (Raise AttributeError,
          {| self := v; out := w ++ Fetch (srcpage v) :: t |})
    /\ ~ In PrintElapsed t.
Proof.
  unfold manifest. intros Ha Hm. unfold get_vidurl. run.
  rewrite Ha, get_assets_cases.
  destruct (net (srcpage v)) as [r|];
    [destruct (Re.search (content r)) as [g|]; [rewrite Hm|]|]; run; rewrite Ha.
  - exists [Print "Error loading JSON string"; Print asset_failure_message].
    split; [now repeat split|]. split; [reflexivity|].
    intros [H|[H|[]]]; discriminate H.
  - exists [Print asset_failure_message].
    split; [now repeat split|]. split; [reflexivity|].
    intros [H|[]]; discriminate H.
  - exists [Print asset_failure_message].
    split; [now repeat split|]. split; [reflexivity|].
    intros [H|[]]; discriminate H.
Qed.

(** What [get_vidurl] can do to a job whose frame is set: it adds no
    event, keeps the frame and the configuration, returns the [vidurl]
    it leaves, and raises nothing but [KeyError] and [AttributeError]. *)
Lemma get_vidurl_set_effect (v : Video) (w : list event) (df : Pd.DataFrame) :
  assets v = Some df ->
  exists o v1,
    get_vidurl net json_loads {| self := v; out := w |}
    = (o, {| self := v1; out := w |})
    /\ same_config v v1 /\ assets v1 = Some df
    /\ match o with
       | Ok x => x = vidurl v1
       | Raise e => v1 = v /\ (e = AttributeError \/ exists k, e = KeyError k)
       end.
Proof.
  intros Ha. rewrite (get_vidurl_set_cases v w df Ha).
  destruct (Pd.has_column df "container"); cbn [negb];
    [|exists (Raise (KeyError "container")), v; unfold same_config; eauto 10].
  destruct (Pd.has_column df "display_name"); cbn [negb];
    [|exists (Raise (KeyError "display_name")), v; unfold same_config; eauto 10].
  destruct (Pd.has_column df "url"); cbn [negb];
    [|exists (Raise (KeyError "url")), v; unfold same_config; eauto 10].
  destruct (map _ (List.filter _ df)) as [|[s|] [|y t]].
  - exists (Ok (vidurl v)), v. unfold same_config. eauto 10.
  - eexists (Ok _), (set_vidurl _ v). unfold same_config. cbn. eauto 10.
  - exists (Ok (vidurl v)), v. unfold same_config. eauto 10.
  - exists (Raise AttributeError), v. unfold same_config. eauto 10.
  - exists (Ok (vidurl v)), v. unfold same_config. eauto 10.
Qed.

(** [download] on a job without a URL, after the selection. *)
Lemma download_after_selection (v : Video) (w : list event) :
  vidurl v = None ->
  download net json_loads open_wb {| self := v; out := w |}
  = match get_vidurl net json_loads {| self := v; out := w |} with
    | (Raise e, st1) => (Raise e, st1)
    | (Ok _, st1) =>
        match vidurl (self st1) with
        | Some u =>
            (stream_outcome net open_wb (self st1) u,
             {| self := self st1;
                out := out st1 ++ stream_events net open_wb (self st1) u |})
        | None =>
            match vid_name (self st1) with
            | Some n =>
                (Ok None,
                 {| self := self st1;
                    out := out st1 ++ [Print ("Error downloading " ++ n)] |})
            | None => (Raise AttributeError, st1)
            end
        end
    end.
Proof.
  intros Hu. unfold download at 1. run. rewrite Hu.
  destruct (get_vidurl net json_loads {| self := v; out := w |}) as [[x|e] [v1 w1]];
    run; [|reflexivity].
  destruct (vidurl v1) as [u|] eqn:Hu1.
  - rewrite (destination_resolved v1 u _ Hu1). run.
    unfold requests_get_stream, stream_outcome, stream_events. run.
    destruct (net u) as [r|]; run.
    + destruct (bool_decide (status_code r = 200%Z)); run; rewrite ?Hu1.
      * destruct (py_open open_wb (dest_path v1 u)) as [[]|e]; run; rewrite ?Hu1.
        -- now rewrite <- app_assoc.
        -- reflexivity.
      * reflexivity.
    + now rewrite <- app_assoc.
  - unfold destination. rewrite Hu1.
    destruct (vid_name v1) as [n|]; run; [|reflexivity].
    rewrite ?Hu1. unfold requests_get_stream. run. reflexivity.
Qed.

(** What the download step adds to a trace, and what it can raise. *)
Lemma stream_events_shape (v : Video) (u : string) :
  fetches (stream_events net open_wb v u) = []
  /\ streams (stream_events net open_wb v u) = [u]
  /\ (writes (stream_events net open_wb v u) = []
      \/ exists r, net u = Some r /\ status_code r = 200%Z
           /\ writes (stream_events net open_wb v u) = [(dest_path v u, content r)]).
Proof.
  unfold stream_events. destruct (net u) as [r|]; [|now repeat split; left].
  destruct (bool_decide (status_code r = 200%Z)) eqn:E.
  - apply bool_decide_eq_true in E.
    destruct (py_open open_wb (dest_path v u)).
    + repeat split. right. now exists r.
    + repeat split. now left.
  - repeat split. now left.
Qed.

Lemma stream_outcome_raises (v : Video) (u : string) (e : exn) :
  stream_outcome net open_wb v u = Raise e ->
  exists p, py_open open_wb p = Raise e.
Proof.
  unfold stream_outcome. destruct (net u) as [r|]; [|discriminate].
  destruct (bool_decide _); [|discriminate].
  destruct (py_open open_wb (dest_path v u)) as [|e'] eqn:E; [discriminate|].
  intros [= ->]. now exists (dest_path v u).
Qed.

(** [download] on a fresh job, in one statement: the trace it adds, the
    configuration, and the exceptions it can raise. *)
Lemma download_fresh_effect (v : Video) (w : list event) :
  assets v = None ->
  vidurl v = None ->
  exists o v1 t,
    download net json_loads open_wb {| self := v; out := w |}
    = (o, {| self := v1; out := w ++ Fetch (srcpage v) :: t |})
    /\ same_config v v1
    /\ fetches t = []
    /\ ((streams t = [] /\ writes t = [])
        \/ exists u, streams t = [u]
             /\ (writes t = []
                 \/ exists r, net u = Some r /\ status_code r = 200%Z
                      /\ writes t = [(dest_path v1 u, content r)]))
    /\ match o with
       | Raise e =>
           e = AttributeError \/ (exists k, e = KeyError k)
           \/ (exists p, py_open open_wb p = Raise e)
       | Ok _ => manifest net json_loads (srcpage v) <> None
       end.
Proof.
  intros Ha Hu. rewrite (download_after_selection v w Hu).
  destruct (manifest net json_loads (srcpage v)) as [l|] eqn:Hm.
  - rewrite (get_vidurl_fresh_manifest v w l Ha Hm).
    destruct (get_vidurl_set_effect (set_assets (Some l) v)
                (w ++ [Fetch (srcpage v)]) l eq_refl)
      as (o & v1 & -> & Hcfg & _ & Ho).
    assert (same_config v v1) as Hcfg' by exact Hcfg.
    destruct o as [x|e]; cbn [self out].
    + destruct (vidurl v1) as [u|].
      * destruct (stream_events_shape v1 u) as (Hf & Hs & Hw).
        exists (stream_outcome net open_wb v1 u), v1, (stream_events net open_wb v1 u).
        rewrite <- app_assoc.
        split; [reflexivity|]. split; [exact Hcfg'|]. split; [exact Hf|].
        split; [right; exists u; split; [exact Hs|exact Hw]|].
        destruct (stream_outcome net open_wb v1 u) as [y|e] eqn:Eo; [discriminate|].
        right. right. exact (stream_outcome_raises v1 u e Eo).
      * destruct (vid_name v1) as [n|].
        -- exists (Ok None), v1, [Print ("Error downloading " ++ n)].
           rewrite <- app_assoc.
           split; [reflexivity|]. split; [exact Hcfg'|]. split; [reflexivity|].
           split; [now left|discriminate].
        -- exists (Raise AttributeError), v1, [].
           split; [reflexivity|]. split; [exact Hcfg'|]. split; [reflexivity|].
           split; [now left|now left].
    + destruct Ho as [-> He].
      exists (Raise e), (set_assets (Some l) v), [].
      split; [reflexivity|]. split; [now repeat split|]. split; [reflexivity|].
      split; [now left|]. destruct He as [->|He]; [now left|right; now left].
  - destruct (get_vidurl_fresh_no_manifest v w Ha Hm)
      as (t & (Hf & Hs & Hw) & -> & _).
    exists (Raise AttributeError), v, t.
    split; [reflexivity|]. split; [now repeat split|]. split; [exact Hf|].
    split; [now left|now left].
Qed.

Lemma fetches_app (a b : list event) : fetches (a ++ b) = (fetches a ++ fetches b)%list.
Proof. induction a as [|[] a IH]; cbn [app fetches]; now rewrite ?IH. Qed.

Lemma streams_app (a b : list event) : streams (a ++ b) = (streams a ++ streams b)%list.
Proof. induction a as [|[] a IH]; cbn [app streams]; now rewrite ?IH. Qed.

Lemma writes_app (a b : list event) : writes (a ++ b) = (writes a ++ writes b)%list.
Proof. induction a as [|[] a IH]; cbn [app writes]; now rewrite ?IH. Qed.

(** The trace of [download_vid] is the trace of [download] on the fresh
    object. *)
Lemma download_vid_trace (it : item) (w : list event) :
  download_vid net json_loads open_wb it w
  = (match fst (download net json_loads open_wb
                  {| self := Video_init (fst it) (snd it) "224p" "mp4"; out := w |}) with
     | Ok _ => Ok None
     | Raise e => Raise e
     end,
     out (snd (download net json_loads open_wb
                 {| self := Video_init (fst it) (snd it) "224p" "mp4"; out := w |}))).
Proof.
  unfold download_vid.
  now destruct (download net json_loads open_wb _) as [[x|e] st].
Qed.

(** X10: a job sends exactly one request for its page, first of all; it
    streams at most one address and writes at most one file.  There is
    no second attempt on any path. *)
Theorem job_requests_once (it : item) (w : list event) :
  exists t,
    snd (download_vid net json_loads open_wb it w)
    = (w ++ Fetch (baseaddr ++ snd it)%string :: t)%list
    /\ fetches t = []
    /\ length (streams t) <= 1
    /\ length (writes t) <= 1.
Proof.
  rewrite download_vid_trace. cbn [snd].
  destruct (download_fresh_effect (Video_init (fst it) (snd it) "224p" "mp4") w
              eq_refl eq_refl) as (o & v1 & t & -> & _ & Hf & Hsw & _).
  exists t. cbn [snd out]. split; [reflexivity|]. split; [exact Hf|].
  destruct Hsw as [[-> ->]|(u & -> & [->|(r & _ & _ & ->)])]; cbn [length]; lia.
Qed.


(** X12: a job whose page yields no manifest (the request failed, the
    pattern found no match, or the group did not decode) raises
    [AttributeError]: no frame is stored and [get_vidurl] evaluates
    [df.loc] on [None].  It has fetched its page and printed; nothing is
    streamed and nothing is written. *)
Theorem job_without_manifest (it : item) (w : list event) :
  manifest net json_loads (baseaddr ++ snd it) = None ->
  exists t,
    download_vid net json_loads open_wb it w
    = (Raise AttributeError, (w ++ Fetch (baseaddr ++ snd it)%string :: t)%list)
    /\ quiet t.
Proof.
  intros Hm. unfold download_vid.
  set (v := Video_init (fst it) (snd it) "224p" "mp4").
  rewrite (download_after_selection v w eq_refl).
  destruct (get_vidurl_fresh_no_manifest v w eq_refl Hm) as (t & Hq & -> & _).
  exists t. split; [reflexivity|exact Hq].
Qed.


(** [get_vidurl] never changes the configuration of the job. *)
Lemma get_vidurl_config (v : Video) (w : list event) :
  same_config v (self (snd (get_vidurl net json_loads {| self := v; out := w |}))).
Proof.
  destruct (assets v) as [df|] eqn:Ha.
  - destruct (get_vidurl_set_effect v w df Ha) as (o & v1 & -> & Hc & _). exact Hc.
  - destruct (manifest net json_loads (srcpage v)) as [l|] eqn:Hm.
    + rewrite (get_vidurl_fresh_manifest v w l Ha Hm).
      destruct (get_vidurl_set_effect (set_assets (Some l) v)
                  (w ++ [Fetch (srcpage v)]) l eq_refl) as (o & v1 & -> & Hc & _).
      exact Hc.
    + destruct (get_vidurl_fresh_no_manifest v w Ha Hm) as (t & _ & -> & _).
      now repeat split.
Qed.

(** X14: whatever state the job is in and whatever happens, [download]
    leaves the page address, the name, the resolution and the container
    of the job as they were: only [assets] and [vidurl] ever change. *)
Theorem download_keeps_config (v : Video) (w : list event) :
  same_config v (self (snd (download net json_loads open_wb {| self := v; out := w |}))).
Proof.
  destruct (vidurl v) as [u|] eqn:Hu.
  - rewrite (download_resolved net json_loads open_wb v w u Hu). now repeat split.
  - rewrite (download_after_selection v w Hu).
    pose proof (get_vidurl_config v w) as Hc.
    destruct (get_vidurl net json_loads {| self := v; out := w |}) as [[x|e] [v1 w1]];
      cbn [snd self out] in *; [|exact Hc].
    destruct (vidurl v1); [exact Hc|].
    destruct (vid_name v1); exact Hc.
Qed.


End Methods.

(** ** The pool *)

Section PoolFacts.

Variable net : string -> option response.
Variable json_loads : string -> option (list asset).
Variable open_wb : string -> outcome unit.

Lemma stream_events_no_elapsed (v : Video) (u : string) :
  ~ In PrintElapsed (stream_events net open_wb v u).
Proof.
  unfold stream_events.
  destruct (net u) as [r|];
    [destruct (bool_decide _); [destruct (py_open _ _)|]|];
    cbn [In]; intuition discriminate.
Qed.

(** The closing line is not an event of a job. *)
Lemma job_no_elapsed (it : item) :
  ~ In PrintElapsed (Pool.todo (Pool.launch net json_loads open_wb it)).
Proof.
  cbn [Pool.todo Pool.launch]. rewrite download_vid_trace. cbn [snd].
  set (v := Video_init (fst it) (snd it) "224p" "mp4").
  rewrite (download_after_selection net json_loads open_wb v [] eq_refl).
  destruct (manifest net json_loads (srcpage v)) as [l|] eqn:Hm.
  - rewrite (get_vidurl_fresh_manifest net json_loads v [] l eq_refl Hm).
    destruct (get_vidurl_set_effect net json_loads (set_assets (Some l) v)
                ([] ++ [Fetch (srcpage v)]) l eq_refl) as (o & v1 & -> & _).
    cbn [app]. destruct o as [x|e]; cbn [self out snd].
    + destruct (vidurl v1) as [u|]; [|destruct (vid_name v1)]; cbn [snd out].
      * intros [H|H]; [discriminate H|].
        exact (stream_events_no_elapsed v1 u H).
      * cbn [app In]. intuition discriminate.
      * cbn [In]. intuition discriminate.
    + cbn [In]. intuition discriminate.
  - destruct (get_vidurl_fresh_no_manifest net json_loads v [] eq_refl Hm)
      as (t & _ & -> & Ht).
    cbn [snd out app]. intros [H|H]; [discriminate H|exact (Ht H)].
Qed.

(** What stays true of a pool that holds a job that raises. *)
Definition pool_inv (p : Pool.pool) : Prop :=
  Pool.doomed net json_loads open_wb p
  /\ Pool.ended p <> Some (Ok tt)
  /\ ~ In PrintElapsed (Pool.trace p)
  /\ Forall (fun f => ~ In PrintElapsed (Pool.todo f)) (Pool.running p).

Lemma pool_inv_step (p q : Pool.pool) :
  Pool.step net json_loads open_wb p q -> pool_inv p -> pool_inv q.
Proof.
  unfold pool_inv, Pool.doomed.
  intros Hs (Hd & He & Ht & Hf). destruct Hs; cbn [Pool.waiting Pool.running
    Pool.done Pool.trace Pool.ended] in *.
  - (* a worker takes a row *)
    split; [|split; [exact He|split; [exact Ht|]]].
    + destruct Hd as [Hd|[Hd|Hd]].
      * apply Exists_cons in Hd as [Hd|Hd]; [|now left].
        right. left. apply Exists_app. right. now apply Exists_cons_hd.
      * right. left. apply Exists_app. now left.
      * now right; right.
    + apply Forall_app. split; [exact Hf|].
      apply Forall_cons. split; [apply job_no_elapsed|apply Forall_nil].
      exact I.
  - (* a job produces an event *)
    apply Forall_app in Hf as [Hf1 Hf2].
    apply Forall_cons in Hf2 as [Hf2 Hf3]. cbn [Pool.todo] in Hf2.
    split; [|split; [exact He|split]].
    + destruct Hd as [Hd|[Hd|Hd]]; [now left| |now right; right].
      right. left. apply Exists_app in Hd as [Hd|Hd]; apply Exists_app; [now left|].
      right. apply Exists_cons in Hd as [Hd|Hd];
        [now apply Exists_cons_hd|now apply Exists_cons_tl].
    + intros H. apply in_app_iff in H as [H|[H|[]]]; [exact (Ht H)|].
      apply Hf2. left. exact H.
    + apply Forall_app. split; [exact Hf1|]. apply Forall_cons. split; [|exact Hf3].
      cbn [Pool.todo]. intros H. apply Hf2. now right.
  - (* a job hands its result over *)
    apply Forall_app in Hf as [Hf1 Hf2].
    apply Forall_cons in Hf2 as [_ Hf3].
    split; [|split; [exact He|split; [exact Ht|]]].
    + destruct Hd as [Hd|[Hd|[Hd|Hd]]]; [now left| | |now right; right; right].
      * apply Exists_app in Hd as [Hd|Hd].
        -- right. left. apply Exists_app. now left.
        -- apply Exists_cons in Hd as [Hd|Hd].
           ++ right. right. left. apply Exists_app. right. now apply Exists_cons_hd.
           ++ right. left. apply Exists_app. now right.
      * right. right. left. apply Exists_app. now left.
    + apply Forall_app. now split.
  - (* the loop prints a result *)
    split; [|split; [exact He|split; [|exact Hf]]].
    + destruct Hd as [Hd|[Hd|[Hd|Hd]]]; [now left|now right; left| |now right; right; right].
      apply Exists_cons in Hd as [[]|Hd]. now right; right; left.
    + intros H. apply in_app_iff in H as [H|[H|[]]]; [exact (Ht H)|discriminate H].
  - (* the loop re-raises *)
    split; [|split; [discriminate|split; [exact Ht|exact Hf]]].
    right. right. right. now exists e.
  - (* the loop ends *)
    exfalso. destruct Hd as [Hd|[Hd|[Hd|[e Hd]]]];
      [apply Exists_nil in Hd|apply Exists_nil in Hd|apply Exists_nil in Hd|];
      try contradiction. discriminate Hd.
Qed.

(** X21: a batch that holds a row whose job raises never completes.  In
    every run of the pool, however the jobs interleave and in whatever
    order they complete, the main thread does not reach the end of the
    loop and the closing line is never printed. *)
Theorem pool_never_completes (ids : list item) (it : item) (p : Pool.pool) :
  In it ids ->
  Pool.raised (fst (download_vid net json_loads open_wb it [])) ->
  rtc (Pool.step net json_loads open_wb) (Pool.init ids) p ->
  Pool.ended p <> Some (Ok tt) /\ ~ In PrintElapsed (Pool.trace p).
Proof.
  intros Hin Hr Hrun.
  assert (pool_inv p) as (_ & He & Ht & _); [|now split].
  apply (rtc_ind_r (R := Pool.step net json_loads open_wb) pool_inv (Pool.init ids));
    [| |exact Hrun].
  - unfold pool_inv, Pool.doomed.
    cbn [Pool.init Pool.waiting Pool.running Pool.done Pool.trace Pool.ended].
    split; [|split; [discriminate|split; [intros []|apply Forall_nil; exact I]]].
    left. apply Exists_exists. exists it. split; [|exact Hr].
    now apply list_elem_of_In.
  - intros y z _ Hstep IH. exact (pool_inv_step y z Hstep IH).
Qed.

Lemma single_step (it : item) (p q : Pool.pool) :
  Pool.single net json_loads open_wb it p ->
  Pool.step net json_loads open_wb p q ->
  Pool.single net json_loads open_wb it q.
Proof.
  intros Hp Hs. destruct Hp; inversion Hs; subst;
    try match goal with
        | H : (_ ++ _ :: _)%list = [] |- _ =>
            symmetry in H; now apply app_cons_not_nil in H
        end;
    try match goal with
        | H : (_ ++ _ :: _)%list = [_] |- _ =>
            apply app_singleton in H as [[-> H]|[_ H]]; [|discriminate H];
            injection H as H1 H2 H3; subst
        end.
  - (* the row is taken *)
    apply (Pool.single_run net json_loads open_wb it [] _ eq_refl).
  - (* the job produces an event *)
    cbn [app]. apply Pool.single_run. rewrite <- app_assoc. assumption.
  - (* the job hands its result over *)
    cbn [app].
    match goal with
    | H : Pool.todo _ = (_ ++ [])%list |- _ => rewrite app_nil_r in H; rewrite <- H
    end.
    apply Pool.single_done.
  - (* the loop prints *)
    apply Pool.single_printed. cbn [Pool.launch Pool.result]. congruence.
  - (* the loop re-raises *)
    apply Pool.single_raised. cbn [Pool.launch Pool.result]. congruence.
  - (* the loop ends *)
    now apply Pool.single_finished.
Qed.

(** X23: on a batch of one row the pool has a single outcome: every run
    that ends, ends with the result and the trace that [main] computes
    for that row. *)
Theorem pool_single_row (it : item) (p : Pool.pool) (o : outcome unit) :
  rtc (Pool.step net json_loads open_wb) (Pool.init [it]) p ->
  Pool.ended p = Some o ->
  (o, Pool.trace p) = main net json_loads open_wb [it] [].
Proof.
  intros Hrun He.
  assert (Pool.single net json_loads open_wb it p) as Hp.
  { apply (rtc_ind_r (R := Pool.step net json_loads open_wb)
             (Pool.single net json_loads open_wb it) (Pool.init [it]));
      [| |exact Hrun].
    - apply Pool.single_init.
    - intros y z _ Hstep IH. exact (single_step it y z IH Hstep). }
  unfold main. cbn [consume].
  destruct Hp as [|pre suf Hps| |u Hu|u Hu|e Hu];
    cbn [Pool.init Pool.ended Pool.trace] in *; try discriminate He;
    injection He as <-; cbn [Pool.launch Pool.result Pool.todo] in *;
    destruct (download_vid net json_loads open_wb it []) as [[x|e'] t];
    cbn [fst snd] in *; try discriminate Hu; injection Hu as ->; reflexivity.
Qed.

End PoolFacts.

(** ** More on the strings *)

Module PyStrMore.
Import PyStr PyStrFacts.

Lemma replace_scan_nil (old new : string) (k : nat) :
  replace_scan old new k EmptyString = EmptyString.
Proof. reflexivity. Qed.

Lemma startswith_cons (a b : ascii) (p s : string) :
  startswith (String a p) (String b s)
  = if Ascii.eqb a b then startswith p s else false.
Proof. reflexivity. Qed.

(** A prefix without a dot that the rewritten string starts with was
    there before the rewriting. *)
Lemma startswith_rewritten (p t : string) :
  contains "." p = false ->
  startswith p (replace_scan ".bin" ".mp4" 0 t) = true ->
  startswith p t = true.
Proof.
  revert t. induction p as [|a p IH]; intros t Hp H; [reflexivity|].
  cbn [contains startswith] in Hp.
  destruct (Ascii.eqb_spec "." a) as [->|Ha]; [discriminate|].
  cbn [orb] in Hp.
  destruct t as [|c t]; [discriminate H|].
  cbn [replace_scan] in H.
  destruct (startswith ".bin" (String c t)).
  - change (".mp4" ++ replace_scan ".bin" ".mp4" (String.length ".bin" - 1) t)
      with (String "." ("mp4" ++ replace_scan ".bin" ".mp4" 3 t)) in H.
    cbn [startswith] in H.
    destruct (Ascii.eqb_spec a "."); [congruence|discriminate].
  - cbn [startswith] in *.
    destruct (Ascii.eqb a c); [|discriminate].
    apply IH; [|exact H].
    destruct p; [reflexivity|exact Hp].
Qed.

Lemma contains_mp4 (x : string) :
  contains ".bin" x = false -> contains ".bin" (".mp4" ++ x) = false.
Proof.
  intros H.
  change (".mp4" ++ x) with (String "." (String "m" (String "p" (String "4" x)))).
  cbn [contains]. rewrite H.
  destruct x; reflexivity.
Qed.

(** X16: after the rewriting for the container mp4, no [.bin] is left in
    the URL, wherever the occurrences stood and however they followed one
    another. *)
Theorem replace_leaves_no_bin (s : string) :
  contains ".bin" (replace ".bin" ".mp4" s) = false.
Proof.
  unfold replace.
  assert (forall k, contains ".bin" (replace_scan ".bin" ".mp4" k s) = false) as H;
    [|apply H].
  induction s as [|c t IH]; intros k; [reflexivity|].
  destruct k as [|k]; cbn [replace_scan]; [|apply IH].
  destruct (startswith ".bin" (String c t)) eqn:E.
  - apply contains_mp4, IH.
  - cbn [contains]. rewrite IH, orb_false_r.
    destruct (startswith ".bin" (String c (replace_scan ".bin" ".mp4" 0 t))) eqn:E';
      [|reflexivity].
    rewrite startswith_cons in E, E'.
    destruct (Ascii.eqb "." c); [|discriminate].
    apply startswith_rewritten in E'; [congruence|reflexivity].
Qed.

(** What [after_last] returns is the last segment: it holds no [sep],
    and what stands before it in the string is empty or ends in [sep]. *)
Lemma after_last_split (sep : ascii) (s : string) :
  contains (String sep EmptyString) (after_last sep s) = false
  /\ exists pre,
       s = pre ++ after_last sep s
       /\ (pre = EmptyString \/ exists q, pre = q ++ String sep EmptyString).
Proof.
  induction s as [|c t [IH1 (pre & IH2 & IH3)]].
  - split; [reflexivity|]. exists EmptyString. split; [reflexivity|now left].
  - cbn [after_last].
    destruct (Ascii.eqb_spec c sep) as [->|Hc].
    + split; [exact IH1|]. exists (String sep pre). split.
      * rewrite append_cons. now f_equal.
      * right. destruct IH3 as [->|[q ->]].
        -- now exists EmptyString.
        -- exists (String sep q). now rewrite append_cons.
    + destruct (contains (String sep EmptyString) t) eqn:Ec.
      * split; [exact IH1|]. exists (String c pre). split.
        -- rewrite append_cons. now f_equal.
        -- right. destruct IH3 as [->|[q ->]].
           ++ rewrite append_nil in IH2. rewrite <- IH2 in IH1. congruence.
           ++ exists (String c q). now rewrite append_cons.
      * split.
        -- cbn [contains startswith]. rewrite Ec.
           destruct (Ascii.eqb_spec sep c); [congruence|reflexivity].
        -- exists EmptyString. split; [reflexivity|now left].
Qed.

End PyStrMore.

(** X17: the destination of a job that has no name and a resolved URL is
    the last path segment of the URL: it holds no slash, and the URL is
    the destination preceded by nothing or by a part that ends in a
    slash.  (It is empty when the URL ends in a slash.) *)
Theorem unnamed_destination_is_last_segment (v : Video) (u : string) (st : state) :
  vid_name v = None ->
  vidurl v = Some u ->
  exists p pre,
    destination v st = (Ok p, st)
    /\ PyStr.contains "/" p = false
    /\ u = pre ++ p
    /\ (pre = EmptyString \/ exists q, pre = q ++ "/").
Proof.
  intros Hn Hu. unfold destination. rewrite Hn, Hu.
  destruct (PyStrMore.after_last_split "/" u) as (H1 & pre & H2 & H3).
  exists (PyStr.after_last "/" u), pre. now repeat split.
Qed.

(** ** More on the manifest pattern *)

Module ReMore.
Import PyStr PyStrFacts.

Lemma search_eq (page : string) :
  Re.search page
  = match Re.match_here page with
    | Some g => Some g
    | None =>
        match page with
        | EmptyString => None
        | String _ t => Re.search t
        end
    end.
Proof. destruct page; reflexivity. Qed.

Lemma startswith_drop (p s : string) :
  startswith p s = true -> s = p ++ drop (String.length p) s.
Proof.
  revert s. induction p as [|a p IH]; intros [|b s] H.
  - reflexivity.
  - reflexivity.
  - discriminate H.
  - rewrite PyStrMore.startswith_cons in H.
    destruct (Ascii.eqb_spec a b) as [->|]; [|discriminate].
    rewrite append_cons. cbn [String.length drop]. f_equal. now apply IH.
Qed.

Lemma drop_app (p s : string) : drop (String.length p) (p ++ s) = s.
Proof.
  induction p as [|a p IH]; [now destruct s|].
  rewrite append_cons. exact IH.
Qed.

Lemma line_split (s : string) : exists rest, s = Re.line s ++ rest.
Proof.
  induction s as [|c t [rest IH]]; [now exists EmptyString|].
  cbn [Re.line]. destruct (Ascii.eqb c lf).
  - now exists (String c t).
  - exists rest. rewrite append_cons. now f_equal.
Qed.

Lemma line_no_lf (s : string) : contains (String lf EmptyString) (Re.line s) = false.
Proof.
  induction s as [|c t IH]; [reflexivity|].
  cbn [Re.line]. destruct (Ascii.eqb c lf) eqn:E; [reflexivity|].
  cbn [contains startswith]. now rewrite IH, Ascii.eqb_sym, E.
Qed.

Lemma contains_char_app (c : ascii) (a b : string) :
  contains (String c EmptyString) (a ++ b)
  = contains (String c EmptyString) a || contains (String c EmptyString) b.
Proof.
  induction a as [|x a IH].
  - rewrite append_nil. reflexivity.
  - rewrite append_cons. cbn [contains startswith]. rewrite IH.
    now destruct (Ascii.eqb c x).
Qed.

Lemma upto_last_bracket_split (s r : string) :
  Re.upto_last_bracket s = Some r ->
  exists b post, r = b ++ "]" /\ s = r ++ post.
Proof.
  revert r. induction s as [|c t IH]; intros r H; [discriminate|].
  cbn [Re.upto_last_bracket] in H.
  destruct (Re.upto_last_bracket t) as [r'|].
  - injection H as <-. destruct (IH r' eq_refl) as (b & post & -> & Ht).
    exists (String c b), post. rewrite !append_cons. split; [reflexivity|].
    now f_equal.
  - destruct (Ascii.eqb_spec c "]") as [->|]; [|discriminate].
    injection H as <-. exists EmptyString, t. split; reflexivity.
Qed.

Lemma match_here_sound (s g : string) :
  Re.match_here s = Some g ->
  exists post b,
    s = Re.marker ++ g ++ post /\ g = "[" ++ b ++ "]"
    /\ contains (String lf EmptyString) g = false.
Proof.
  unfold Re.match_here.
  destruct (startswith (Re.marker ++ "[") s) eqn:E; [|discriminate].
  apply startswith_drop in E.
  change (String.length (Re.marker ++ "[")) with (String.length Re.marker + 1) in E.
  set (rest := drop (String.length Re.marker + 1) s) in *.
  destruct (Re.upto_last_bracket (Re.line rest)) as [r|] eqn:Hr; [|discriminate].
  intros [= <-].
  destruct (upto_last_bracket_split _ _ Hr) as (b & post & -> & Hl).
  destruct (line_split rest) as [rest' Hrest].
  exists (post ++ rest'), b. split; [|split].
  - rewrite E, Hrest, Hl. now rewrite !append_assoc.
  - reflexivity.
  - pose proof (line_no_lf rest) as Hn. rewrite Hl, contains_char_app in Hn.
    apply orb_false_iff in Hn as [Hn _].
    change ("[" ++ b ++ "]") with (String "[" (b ++ "]")).
    cbn [contains startswith]. now rewrite Hn.
Qed.

(** X18: what the pattern captures stands in the page right after the
    marker, begins with an opening and ends with a closing bracket, and
    holds no line feed. *)
Theorem search_sound (page g : string) :
  Re.search page = Some g ->
  exists pre post b,
    page = pre ++ Re.marker ++ g ++ post /\ g = "[" ++ b ++ "]"
    /\ contains (String lf EmptyString) g = false.
Proof.
  induction page as [|c t IH]; rewrite search_eq.
  - destruct (Re.match_here EmptyString) eqn:E; [|discriminate].
    intros [= <-]. destruct (match_here_sound _ _ E) as (post & b & H).
    now exists EmptyString, post, b.
  - destruct (Re.match_here (String c t)) eqn:E.
    + intros [= <-]. destruct (match_here_sound _ _ E) as (post & b & H).
      now exists EmptyString, post, b.
    + intros H. destruct (IH H) as (pre & post & b & -> & Hg).
      exists (String c pre), post, b. now rewrite append_cons.
Qed.

Lemma upto_last_bracket_app (b x : string) :
  Re.upto_last_bracket x = None ->
  Re.upto_last_bracket (b ++ "]" ++ x) = Some (b ++ "]").
Proof.
  intros Hx. induction b as [|c b IH].
  - rewrite append_nil. change ("]" ++ x) with (String "]" x).
    cbn [Re.upto_last_bracket]. now rewrite Hx.
  - rewrite (append_cons c b ("]" ++ x)), (append_cons c b "]").
    cbn [Re.upto_last_bracket]. now rewrite IH.
Qed.

Lemma line_app (b x : string) :
  contains (String lf EmptyString) b = false ->
  Re.line (b ++ x) = b ++ Re.line x.
Proof.
  induction b as [|c b IH]; intros H; [now rewrite !append_nil|].
  cbn [contains startswith] in H.
  rewrite !append_cons. cbn [Re.line].
  rewrite Ascii.eqb_sym.
  destruct (Ascii.eqb lf c); [discriminate|].
  cbn [orb] in H. f_equal. apply IH.
  destruct b; [reflexivity|exact H].
Qed.

Lemma match_here_greedy (b tail : string) :
  contains (String lf EmptyString) b = false ->
  Re.upto_last_bracket (Re.line tail) = None ->
  Re.match_here (Re.marker ++ "[" ++ b ++ "]" ++ tail) = Some ("[" ++ b ++ "]").
Proof.
  intros Hb Ht. unfold Re.match_here.
  rewrite <- (append_assoc Re.marker "[").
  rewrite startswith_app.
  change (String.length Re.marker + 1) with (String.length (Re.marker ++ "[")).
  rewrite drop_app, (line_app b _ Hb).
  change (Re.line ("]" ++ tail)) with ("]" ++ Re.line tail).
  now rewrite (upto_last_bracket_app b _ Ht).
Qed.

(** X19: the group is greedy within its line.  In a page where no [W]
    comes before the marker, where the array [b] holds no line feed and
    where no closing bracket follows it before the end of the line, the
    pattern captures exactly the array in its brackets; a closing bracket
    later on the line would be taken into the group. *)
Theorem search_greedy_on_line (pre b tail : string) :
  contains "W" pre = false ->
  contains (String lf EmptyString) b = false ->
  Re.upto_last_bracket (Re.line tail) = None ->
  Re.search (pre ++ Re.marker ++ "[" ++ b ++ "]" ++ tail) = Some ("[" ++ b ++ "]").
Proof.
  intros Hp Hb Ht. induction pre as [|c pre IH].
  - rewrite append_nil, search_eq. now rewrite (match_here_greedy b tail Hb Ht).
  - cbn [contains startswith] in Hp. apply orb_false_iff in Hp as [Hc Hp].
    rewrite append_cons, search_eq.
    assert (Re.match_here (String c (pre ++ Re.marker ++ "[" ++ b ++ "]" ++ tail))
            = None) as ->.
    { unfold Re.match_here.
      remember (Re.marker ++ "[") as m eqn:Hm. vm_compute in Hm. subst m.
      rewrite PyStrMore.startswith_cons.
      destruct (Ascii.eqb "W" c); [discriminate Hc|reflexivity]. }
    apply IH. destruct pre; [reflexivity|exact Hp].
Qed.

End ReMore.

(** ** The network *)

(** X20: [get_assets] does not look at the status of the answer: two
    answers with the same body, whatever their status codes, give the
    same result, so an error page that carries the marker is parsed
    like any other. *)
Theorem get_assets_ignores_status
    (net net' : string -> option response)
    (json_loads : string -> option (list asset))
    (v : Video) (w : list event) (r r' : response) :
  net (srcpage v) = Some r ->
  net' (srcpage v) = Some r' ->
  content r = content r' ->
  get_assets net json_loads {| self := v; out := w |}
  = get_assets net' json_loads {| self := v; out := w |}.
Proof.
  intros Hn Hn' Hc. rewrite !get_assets_cases. now rewrite Hn, Hn', Hc.
Qed.

(** ** The further statements at work on the example world *)

Lemma get_assets_stores_manifest_witness :
  manifest Demo.net Demo.json_loads (srcpage Demo.job_fresh) = Some [Demo.rendition]
  /\ get_assets Demo.net Demo.json_loads {| self := Demo.job_fresh; out := [] |}
     = (Ok (Some [Demo.rendition]),
        {| self := Demo.job_fetched;
           out := [Fetch "http://fast.wistia.net/embed/iframe/abc123"] |}).
Proof.
  assert (manifest Demo.net Demo.json_loads (srcpage Demo.job_fresh)
          = Some [Demo.rendition]) as H by (vm_compute; reflexivity).
  split; [exact H|].
  exact (get_assets_stores_manifest Demo.net Demo.json_loads Demo.job_fresh []
           [Demo.rendition] H).
Defined.

Lemma get_assets_bad_json_witness :
  Demo2.net (srcpage Demo2.job_broken) = Some Demo2.resp_broken
  /\ Re.search (content Demo2.resp_broken) = Some "[oops]"
  /\ Demo.json_loads "[oops]" = None
  /\ get_assets Demo2.net Demo.json_loads {| self := Demo2.job_broken; out := [] |}
     = (Ok None,
        {| self := Demo2.job_broken;
           out := [Fetch "http://fast.wistia.net/embed/iframe/broken1";
                   Print "Error loading JSON string";
                   Print asset_failure_message] |}).
Proof.
  assert (Re.search (content Demo2.resp_broken) = Some "[oops]") as H2
    by (vm_compute; reflexivity).
  split; [reflexivity|]. split; [exact H2|]. split; [reflexivity|].
  exact (get_assets_bad_json Demo2.net Demo.json_loads Demo2.job_broken []
           Demo2.resp_broken "[oops]" eq_refl H2 eq_refl).
Defined.

Lemma get_assets_request_fails_witness :
  Demo.net (srcpage Demo2.job_offline) = None
  /\ get_assets Demo.net Demo.json_loads {| self := Demo2.job_offline; out := [] |}
     = (Ok None,
        {| self := Demo2.job_offline;
           out := [Fetch "http://fast.wistia.net/embed/iframe/offline1";
                   Print asset_failure_message] |}).
Proof.
  split; [reflexivity|].
  exact (get_assets_request_fails Demo.net Demo.json_loads Demo2.job_offline []
           eq_refl).
Defined.

Lemma get_vidurl_missing_column_witness :
  (Pd.has_column Demo2.frame_no_container "container" = false
   /\ get_vidurl Demo.net Demo.json_loads
        {| self := set_assets (Some Demo2.frame_no_container) Demo.job_fresh;
           out := [] |}
      = (Raise (KeyError "container"),
         {| self := set_assets (Some Demo2.frame_no_container) Demo.job_fresh;
            out := [] |}))
  /\ (Pd.has_column Demo2.frame_no_label "container" = true
      /\ Pd.has_column Demo2.frame_no_label "display_name" = false
      /\ get_vidurl Demo.net Demo.json_loads
           {| self := set_assets (Some Demo2.frame_no_label) Demo.job_fresh;
              out := [] |}
         = (Raise (KeyError "display_name"),
            {| self := set_assets (Some Demo2.frame_no_label) Demo.job_fresh;
               out := [] |}))
  /\ (Pd.has_column Demo2.frame_no_url "container" = true
      /\ Pd.has_column Demo2.frame_no_url "display_name" = true
      /\ Pd.has_column Demo2.frame_no_url "url" = false
      /\ get_vidurl Demo.net Demo.json_loads
           {| self := set_assets (Some Demo2.frame_no_url) Demo.job_fresh;
              out := [] |}
         = (Raise (KeyError "url"),
            {| self := set_assets (Some Demo2.frame_no_url) Demo.job_fresh;
               out := [] |})).
Proof.
  split; [|split].
  - split; [reflexivity|].
    exact (proj1 (get_vidurl_missing_column Demo.net Demo.json_loads
                    (set_assets (Some Demo2.frame_no_container) Demo.job_fresh) []
                    Demo2.frame_no_container eq_refl) eq_refl).
  - split; [reflexivity|]. split; [reflexivity|].
    exact (proj1 (proj2 (get_vidurl_missing_column Demo.net Demo.json_loads
                    (set_assets (Some Demo2.frame_no_label) Demo.job_fresh) []
                    Demo2.frame_no_label eq_refl)) eq_refl eq_refl).
  - split; [reflexivity|]. split; [reflexivity|]. split; [reflexivity|].
    exact (proj2 (proj2 (get_vidurl_missing_column Demo.net Demo.json_loads
                    (set_assets (Some Demo2.frame_no_url) Demo.job_fresh) []
                    Demo2.frame_no_url eq_refl)) eq_refl eq_refl eq_refl).
Defined.

Lemma get_vidurl_url_not_string_witness :
  assets (set_assets (Some [Demo2.entry_url_number]) Demo.job_fresh)
  = Some [Demo2.entry_url_number]
  /\ Pd.has_column [Demo2.entry_url_number] "url" = true
  /\ List.filter (matches "mp4" "224p") [Demo2.entry_url_number]
     = [Demo2.entry_url_number]
  /\ Pd.cell "url" Demo2.entry_url_number = JOther
  /\ get_vidurl Demo.net Demo.json_loads
       {| self := set_assets (Some [Demo2.entry_url_number]) Demo.job_fresh;
          out := [] |}
     = (Raise AttributeError,
        {| self := set_assets (Some [Demo2.entry_url_number]) Demo.job_fresh;
           out := [] |}).
Proof.
  assert (List.filter (matches "mp4" "224p") [Demo2.entry_url_number]
          = [Demo2.entry_url_number]) as H3 by reflexivity.
  split; [reflexivity|]. split; [reflexivity|]. split; [exact H3|].
  split; [reflexivity|].
  exact (get_vidurl_url_not_string Demo.net Demo.json_loads
           (set_assets (Some [Demo2.entry_url_number]) Demo.job_fresh) []
           [Demo2.entry_url_number] Demo2.entry_url_number
           eq_refl eq_refl H3 eq_refl).
Defined.

Lemma get_vidurl_keeps_previous_witness :
  assets Demo2.job_two = Some Demo2.frame_two
  /\ length (List.filter (matches (container Demo2.job_two) (resolution Demo2.job_two))
                Demo2.frame_two) <> 1
  /\ get_vidurl Demo.net Demo.json_loads {| self := Demo2.job_two; out := [] |}
     = (Ok None, {| self := Demo2.job_two; out := [] |}).
Proof.
  assert (length (List.filter (matches (container Demo2.job_two)
                                 (resolution Demo2.job_two)) Demo2.frame_two) <> 1)
    as Hn by (vm_compute; lia).
  split; [reflexivity|]. split; [exact Hn|].
  exact (get_vidurl_keeps_previous Demo.net Demo.json_loads Demo2.job_two []
           Demo2.frame_two eq_refl eq_refl eq_refl eq_refl Hn).
Defined.

Lemma download_unresolved_named_witness :
  assets Demo2.job_two = Some Demo2.frame_two
  /\ vidurl Demo2.job_two = None
  /\ vid_name Demo2.job_two = Some "MyVideo"
  /\ length (List.filter (matches (container Demo2.job_two) (resolution Demo2.job_two))
                Demo2.frame_two) <> 1
  /\ download Demo.net Demo.json_loads Demo.open_wb {| self := Demo2.job_two; out := [] |}
     = (Ok None,
        {| self := Demo2.job_two; out := [Print "Error downloading MyVideo"] |}).
Proof.
  assert (length (List.filter (matches (container Demo2.job_two)
                                 (resolution Demo2.job_two)) Demo2.frame_two) <> 1)
    as Hn by (vm_compute; lia).
  split; [reflexivity|]. split; [reflexivity|]. split; [reflexivity|].
  split; [exact Hn|].
  exact (download_unresolved_named Demo.net Demo.json_loads Demo.open_wb Demo2.job_two []
           Demo2.frame_two "MyVideo" eq_refl eq_refl eq_refl
           eq_refl eq_refl eq_refl Hn).
Defined.

Lemma download_unresolved_unnamed_witness :
  assets Demo2.job_two_unnamed = Some Demo2.frame_two
  /\ vidurl Demo2.job_two_unnamed = None
  /\ vid_name Demo2.job_two_unnamed = None
  /\ length (List.filter (matches (container Demo2.job_two_unnamed)
                             (resolution Demo2.job_two_unnamed)) Demo2.frame_two) <> 1
  /\ download Demo.net Demo.json_loads Demo.open_wb {| self := Demo2.job_two_unnamed; out := [] |}
     = (Raise AttributeError, {| self := Demo2.job_two_unnamed; out := [] |}).
Proof.
  assert (length (List.filter (matches (container Demo2.job_two_unnamed)
                                 (resolution Demo2.job_two_unnamed))
                    Demo2.frame_two) <> 1)
    as Hn by (vm_compute; lia).
  split; [reflexivity|]. split; [reflexivity|]. split; [reflexivity|].
  split; [exact Hn|].
  exact (download_unresolved_unnamed Demo.net Demo.json_loads Demo.open_wb
           Demo2.job_two_unnamed []
           Demo2.frame_two eq_refl eq_refl eq_refl
           eq_refl eq_refl eq_refl Hn).
Defined.



Lemma job_without_manifest_witness :
  manifest Demo2.net Demo.json_loads (baseaddr ++ snd (Some "B", "broken1")) = None
  /\ exists t,
       download_vid Demo2.net Demo.json_loads Demo.open_wb (Some "B", "broken1") []
       = (Raise AttributeError,
          ([] ++ Fetch (baseaddr ++ snd (Some "B", "broken1"))%string :: t)%list)
       /\ quiet t.
Proof.
  assert (manifest Demo2.net Demo.json_loads (baseaddr ++ snd (Some "B", "broken1"))
          = None) as H by (vm_compute; reflexivity).
  split; [exact H|].
  exact (job_without_manifest Demo2.net Demo.json_loads Demo.open_wb
           (Some "B", "broken1") [] H).
Defined.

Lemma unnamed_destination_is_last_segment_witness :
  vid_name (set_vidurl (Some "http://e.net/d/file.mp4")
              (Video_init None "abc123" "224p" "mp4")) = None
  /\ vidurl (set_vidurl (Some "http://e.net/d/file.mp4")
               (Video_init None "abc123" "224p" "mp4"))
     = Some "http://e.net/d/file.mp4"
  /\ exists p pre,
       destination (set_vidurl (Some "http://e.net/d/file.mp4")
                      (Video_init None "abc123" "224p" "mp4"))
         {| self := Demo.job_fresh; out := [] |}
       = (Ok p, {| self := Demo.job_fresh; out := [] |})
       /\ PyStr.contains "/" p = false
       /\ "http://e.net/d/file.mp4" = pre ++ p
       /\ (pre = EmptyString \/ exists q, pre = q ++ "/").
Proof.
  split; [reflexivity|]. split; [reflexivity|].
  exact (unnamed_destination_is_last_segment
           (set_vidurl (Some "http://e.net/d/file.mp4")
              (Video_init None "abc123" "224p" "mp4"))
           "http://e.net/d/file.mp4" {| self := Demo.job_fresh; out := [] |}
           eq_refl eq_refl).
Defined.


Lemma search_sound_witness :
  Re.search Demo.page_abc123 = Some Demo.manifest_text
  /\ exists pre post b,
       Demo.page_abc123 = pre ++ Re.marker ++ Demo.manifest_text ++ post
       /\ Demo.manifest_text = "[" ++ b ++ "]"
       /\ PyStr.contains (String PyStr.lf EmptyString) Demo.manifest_text = false.
Proof.
  assert (Re.search Demo.page_abc123 = Some Demo.manifest_text) as H by reflexivity.
  split; [exact H|].
  exact (ReMore.search_sound Demo.page_abc123 Demo.manifest_text H).
Defined.

Lemma search_greedy_on_line_witness :
  PyStr.contains "W" "<script>" = false
  /\ PyStr.contains (String PyStr.lf EmptyString) "1,2" = false
  /\ Re.upto_last_bracket (Re.line ");</script>") = None
  /\ Re.search ("<script>" ++ Re.marker ++ "[" ++ "1,2" ++ "]" ++ ");</script>")
     = Some ("[" ++ "1,2" ++ "]").
Proof.
  split; [reflexivity|]. split; [reflexivity|]. split; [reflexivity|].
  exact (ReMore.search_greedy_on_line "<script>" "1,2" ");</script>"
           eq_refl eq_refl eq_refl).
Defined.

Lemma get_assets_ignores_status_witness :
  Demo.net (srcpage Demo.job_fresh)
  = Some {| status_code := 200; content := Demo.page_abc123 |}
  /\ Demo2.net (srcpage Demo.job_fresh) = Some Demo2.resp_moved
  /\ content {| status_code := 200; content := Demo.page_abc123 |}
     = content Demo2.resp_moved
  /\ get_assets Demo.net Demo.json_loads {| self := Demo.job_fresh; out := [] |}
     = get_assets Demo2.net Demo.json_loads {| self := Demo.job_fresh; out := [] |}.
Proof.
  split; [reflexivity|]. split; [reflexivity|]. split; [reflexivity|].
  exact (get_assets_ignores_status Demo.net Demo2.net Demo.json_loads Demo.job_fresh []
           {| status_code := 200; content := Demo.page_abc123 |} Demo2.resp_moved
           eq_refl eq_refl eq_refl).
Defined.

Lemma get_vidurl_idempotent_witness :
  assets Demo.job_fetched = Some [Demo.rendition]
  /\ get_vidurl Demo.net Demo.json_loads
       (snd (get_vidurl Demo.net Demo.json_loads
               {| self := Demo.job_fetched; out := [] |}))
     = get_vidurl Demo.net Demo.json_loads {| self := Demo.job_fetched; out := [] |}.
Proof.
  split; [reflexivity|].
  exact (get_vidurl_idempotent Demo.net Demo.json_loads Demo.job_fetched []
           [Demo.rendition] eq_refl).
Defined.

Lemma pool_never_completes_witness :
  In (Some "A", "nosuch") [(Some "MyVideo", "abc123"); (Some "A", "nosuch")]
  /\ Pool.raised
       (fst (download_vid Demo.net Demo.json_loads Demo.open_wb (Some "A", "nosuch") []))
  /\ rtc (Pool.step Demo.net Demo.json_loads Demo.open_wb)
         (Pool.init [(Some "MyVideo", "abc123"); (Some "A", "nosuch")])
         Demo2.pool_aborted
  /\ Pool.ended Demo2.pool_aborted <> Some (Ok tt)
  /\ ~ In PrintElapsed (Pool.trace Demo2.pool_aborted).
Proof.
  assert (In (Some "A", "nosuch") [(Some "MyVideo", "abc123"); (Some "A", "nosuch")])
    as H1 by (right; left; reflexivity).
  assert (Pool.raised (fst (download_vid Demo.net Demo.json_loads Demo.open_wb
                              (Some "A", "nosuch") []))) as H2
    by (vm_compute; exact I).
  assert (rtc (Pool.step Demo.net Demo.json_loads Demo.open_wb)
            (Pool.init [(Some "MyVideo", "abc123"); (Some "A", "nosuch")])
            Demo2.pool_aborted) as H3.
  { eapply rtc_l.
    { apply (Pool.step_start Demo.net Demo.json_loads Demo.open_wb
               (Some "MyVideo", "abc123") [(Some "A", "nosuch")] [] [] [] None).
      vm_compute. lia. }
    eapply rtc_l.
    { apply (Pool.step_start Demo.net Demo.json_loads Demo.open_wb
               (Some "A", "nosuch") [] _ [] [] None).
      vm_compute. lia. }
    eapply rtc_l.
    { exact (Pool.step_emit Demo.net Demo.json_loads Demo.open_wb [] []
               (Fetch "http://fast.wistia.net/embed/iframe/abc123")
               [FetchStream "http://e.net/d/file.mp4";
                WriteFile "MyVideo.mp4" "VIDEO"]
               (Ok None) [Demo2.flight_nosuch] [] [] None). }
    eapply rtc_l.
    { exact (Pool.step_emit Demo.net Demo.json_loads Demo.open_wb []
               [ {| Pool.todo := [FetchStream "http://e.net/d/file.mp4";
                                  WriteFile "MyVideo.mp4" "VIDEO"];
                    Pool.result := Ok None |} ]
               (Fetch "http://fast.wistia.net/embed/iframe/nosuch")
               [Print asset_failure_message] (Raise AttributeError) [] []
               [Fetch "http://fast.wistia.net/embed/iframe/abc123"] None). }
    eapply rtc_l.
    { exact (Pool.step_emit Demo.net Demo.json_loads Demo.open_wb []
               [ {| Pool.todo := [FetchStream "http://e.net/d/file.mp4";
                                  WriteFile "MyVideo.mp4" "VIDEO"];
                    Pool.result := Ok None |} ]
               (Print asset_failure_message) [] (Raise AttributeError) [] []
               [Fetch "http://fast.wistia.net/embed/iframe/abc123";
                Fetch "http://fast.wistia.net/embed/iframe/nosuch"] None). }
    eapply rtc_l.
    { exact (Pool.step_complete Demo.net Demo.json_loads Demo.open_wb []
               [ {| Pool.todo := [FetchStream "http://e.net/d/file.mp4";
                                  WriteFile "MyVideo.mp4" "VIDEO"];
                    Pool.result := Ok None |} ]
               (Raise AttributeError) [] []
               [Fetch "http://fast.wistia.net/embed/iframe/abc123";
                Fetch "http://fast.wistia.net/embed/iframe/nosuch";
                Print asset_failure_message] None). }
    eapply rtc_l.
    { exact (Pool.step_raise Demo.net Demo.json_loads Demo.open_wb []
               [ {| Pool.todo := [FetchStream "http://e.net/d/file.mp4";
                                  WriteFile "MyVideo.mp4" "VIDEO"];
                    Pool.result := Ok None |} ]
               AttributeError []
               [Fetch "http://fast.wistia.net/embed/iframe/abc123";
                Fetch "http://fast.wistia.net/embed/iframe/nosuch";
                Print asset_failure_message]). }
    apply rtc_refl. }
  split; [exact H1|]. split; [exact H2|]. split; [exact H3|].
  exact (pool_never_completes Demo.net Demo.json_loads Demo.open_wb
           [(Some "MyVideo", "abc123"); (Some "A", "nosuch")] (Some "A", "nosuch")
           Demo2.pool_aborted H1 H2 H3).
Defined.

Lemma pool_single_row_witness :
  rtc (Pool.step Demo.net Demo.json_loads Demo.open_wb)
    (Pool.init [(Some "A", "nosuch")]) Demo2.pool_nosuch_ended
  /\ Pool.ended Demo2.pool_nosuch_ended = Some (Raise AttributeError)
  /\ (Raise AttributeError, Pool.trace Demo2.pool_nosuch_ended)
     = main Demo.net Demo.json_loads Demo.open_wb [(Some "A", "nosuch")] [].
Proof.
  assert (rtc (Pool.step Demo.net Demo.json_loads Demo.open_wb)
            (Pool.init [(Some "A", "nosuch")]) Demo2.pool_nosuch_ended) as H1.
  { eapply rtc_l.
    { apply (Pool.step_start Demo.net Demo.json_loads Demo.open_wb
               (Some "A", "nosuch") [] [] [] [] None).
      vm_compute. lia. }
    eapply rtc_l.
    { exact (Pool.step_emit Demo.net Demo.json_loads Demo.open_wb [] []
               (Fetch "http://fast.wistia.net/embed/iframe/nosuch")
               [Print asset_failure_message] (Raise AttributeError) [] [] [] None). }
    eapply rtc_l.
    { exact (Pool.step_emit Demo.net Demo.json_loads Demo.open_wb [] []
               (Print asset_failure_message) [] (Raise AttributeError) [] []
               [Fetch "http://fast.wistia.net/embed/iframe/nosuch"] None). }
    eapply rtc_l.
    { exact (Pool.step_complete Demo.net Demo.json_loads Demo.open_wb [] []
               (Raise AttributeError) [] []
               [Fetch "http://fast.wistia.net/embed/iframe/nosuch";
                Print asset_failure_message] None). }
    eapply rtc_l.
    { exact (Pool.step_raise Demo.net Demo.json_loads Demo.open_wb [] []
               AttributeError []
               [Fetch "http://fast.wistia.net/embed/iframe/nosuch";
                Print asset_failure_message]). }
    apply rtc_refl. }
  split; [exact H1|]. split; [reflexivity|].
  exact (pool_single_row Demo.net Demo.json_loads Demo.open_wb (Some "A", "nosuch")
           Demo2.pool_nosuch_ended (Raise AttributeError) H1 eq_refl).
Defined.
